(** * MetaMuses model download script (scripts/download-models.py)

    A shallow embedding of the script and the proofs of its contract.

    The script is sequential and its only effects are console I/O, the
    files of the models directory, and two calls into the Hugging Face
    client ([hf_hub_download], [list_repo_files]).  The embedding threads
    an explicit [World] through a small state-and-exception monad and
    keeps a trace of the effects, so that statements such as "no network
    access" or "removed before the fetch" can be read off the trace. *)

From Stdlib Require Import ZArith NArith Ascii String DecimalString Sorted.
From stdpp Require Import base gmap strings list.

Local Open Scope list_scope.
Local Open Scope string_scope.

(* ===================================================================== *)
(** ** Python strings (the fragment the script uses) *)
(* ===================================================================== *)

Module PyStr.

(** The line feed, written ["\n"] in the source. *)
Definition nl : string := String (ascii_of_nat 10) EmptyString.

(** ['='*60] *)
Fixpoint repeat_str (s : string) (n : nat) : string :=
  match n with
  | O => EmptyString
  | S n' => s ++ repeat_str s n'
  end.

(** [sep.join(parts)] *)
Fixpoint join (sep : string) (parts : list string) : string :=
  match parts with
  | [] => EmptyString
  | [p] => p
  | p :: ps => p ++ sep ++ join sep ps
  end.

(** [str(n)] for a non-negative integer. *)
Definition of_N (n : N) : string := NilEmpty.string_of_uint (N.to_uint n).
Definition of_nat (n : nat) : string := of_N (N.of_nat n).

(** [f"{s:<w}"] (the default alignment of strings) and [f"{s:>w}"]:
    pad with spaces up to the width, never truncate.  The width counts
    bytes; the names the script formats are ASCII. *)
Definition ljust (w : nat) (s : string) : string :=
  s ++ repeat_str " " (w - String.length s).
Definition rjust (w : nat) (s : string) : string :=
  repeat_str " " (w - String.length s) ++ s.

(** [str.isspace] restricted to ASCII: TAB, LF, VT, FF, CR, the four
    separators FS/GS/RS/US and SPACE. *)
Definition is_space (c : ascii) : bool :=
  let n := nat_of_ascii c in
  ((9 <=? n)%nat && (n <=? 13)%nat) || ((28 <=? n)%nat && (n <=? 32)%nat).

Fixpoint lstrip (s : string) : string :=
  match s with
  | String c s' => if is_space c then lstrip s' else s
  | EmptyString => EmptyString
  end.

Fixpoint rstrip (s : string) : string :=
  match s with
  | EmptyString => EmptyString
  | String c s' =>
      match rstrip s' with
      | EmptyString => if is_space c then EmptyString else String c EmptyString
      | r => String c r
      end
  end.

(** [s.strip()] *)
Definition strip (s : string) : string := rstrip (lstrip s).

Definition lower_ascii (c : ascii) : ascii :=
  let n := nat_of_ascii c in
  if ((65 <=? n)%nat && (n <=? 90)%nat)%bool then ascii_of_nat (n + 32) else c.
Definition upper_ascii (c : ascii) : ascii :=
  let n := nat_of_ascii c in
  if ((97 <=? n)%nat && (n <=? 122)%nat)%bool then ascii_of_nat (n - 32) else c.

Fixpoint map_str (f : ascii -> ascii) (s : string) : string :=
  match s with
  | EmptyString => EmptyString
  | String c s' => String (f c) (map_str f s')
  end.

(** [s.lower()] and [s.upper()] on ASCII text. *)
Definition lower : string -> string := map_str lower_ascii.
Definition upper : string -> string := map_str upper_ascii.

(** [s.endswith(suffix)] *)
Definition endswith (s suffix : string) : bool :=
  let n := String.length s in
  let m := String.length suffix in
  (m <=? n)%nat && String.eqb (String.substring (n - m) m s) suffix.

(** Truthiness of a string: only the empty string is falsy. *)
Definition truthy (s : string) : bool := negb (String.eqb s EmptyString).

(** Truthiness of an optional string ([None] and the empty string are falsy). *)
Definition truthy_opt (o : option string) : bool :=
  match o with
  | Some s => truthy s
  | None => false
  end.

(** [f"{x:.1f}"] for a size kept in tenths. *)
Definition fmt_tenths (t : N) : string :=
  of_N (t / 10) ++ "." ++ of_N (t mod 10).

(** Round-half-to-even of [num / den]. *)
Definition round_half_even (num den : N) : N :=
  let q := (num / den)%N in
  let r := (num mod den)%N in
  match (2 * r ?= den)%N with
  | Lt => q
  | Gt => (q + 1)%N
  | Eq => if N.even q then q else (q + 1)%N
  end.

(** [f"{b / (1024**3):.2f}"] for a byte count [b]: the quotient by a
    power of two is exact in binary floating point, and the formatter
    rounds the exact value half-to-even to two decimals. *)
Definition fmt_gib (b : N) : string :=
  let h := round_half_even (b * 100) (2 ^ 30) in
  let frac := (h mod 100)%N in
  of_N (h / 100) ++ "." ++ (if (frac <? 10)%N then "0" else EmptyString) ++ of_N frac.

End PyStr.

(* ===================================================================== *)
(** ** Model definitions: the catalog and the presets *)
(* ===================================================================== *)

(** One value of the [MODELS] dict.  [size_gb] is a decimal literal with
    one fractional digit in the source; it is kept in tenths of a GB. *)
Record ModelInfo := {
  repo_id : string;
  filename : string;
  description : string;
  tier : string;
  size_gb : N
}.

(** Python dicts keep insertion order and the script iterates over both
    tables, so they are association lists in source order. *)
Definition MODELS : list (string * ModelInfo) := [
  ("qwen2.5-1.5b-q5",
   {| repo_id := "Qwen/Qwen2.5-1.5B-Instruct-GGUF";
      filename := "qwen2.5-1.5b-instruct-q5_k_m.gguf";
      description := "Qwen2.5 1.5B Q5_K_M - Fast tier";
      tier := "fast"; size_gb := 12 |});
  ("phi3-mini-q5",
   {| repo_id := "microsoft/Phi-3-mini-4k-instruct-gguf";
      filename := "Phi-3-mini-4k-instruct-q5_k_m.gguf";
      description := "Phi-3 Mini Q5_K_M - Fast tier";
      tier := "fast"; size_gb := 23 |});
  ("qwen2.5-7b-q5",
   {| repo_id := "Qwen/Qwen2.5-7B-Instruct-GGUF";
      filename := "qwen2.5-7b-instruct-q5_k_m.gguf";
      description := "Qwen2.5 7B Q5_K_M - Medium tier";
      tier := "medium"; size_gb := 58 |});
  ("llama3.1-8b-q5",
   {| repo_id := "lmstudio-community/Meta-Llama-3.1-8B-Instruct-GGUF";
      filename := "Meta-Llama-3.1-8B-Instruct-Q5_K_M.gguf";
      description := "LLaMA 3.1 8B Q5_K_M - Medium tier";
      tier := "medium"; size_gb := 61 |});
  ("qwen3-4b-q4",
   {| repo_id := "unsloth/Qwen3-4B-Instruct-2507-GGUF";
      filename := "Qwen3-4B-Instruct-2507-Q4_K_M.gguf";
      description := "Qwen3 4B Q4_K_M - Balanced (fastest)";
      tier := "medium"; size_gb := 25 |});
  ("qwen3-4b-q5",
   {| repo_id := "unsloth/Qwen3-4B-Instruct-2507-GGUF";
      filename := "Qwen3-4B-Instruct-2507-Q5_K_M.gguf";
      description := "Qwen3 4B Q5_K_M - Good quality";
      tier := "medium"; size_gb := 30 |});
  ("qwen3-4b-q6",
   {| repo_id := "unsloth/Qwen3-4B-Instruct-2507-GGUF";
      filename := "Qwen3-4B-Instruct-2507-Q6_K.gguf";
      description := "Qwen3 4B Q6_K - Better quality";
      tier := "medium"; size_gb := 35 |});
  ("qwen3-4b-q8",
   {| repo_id := "unsloth/Qwen3-4B-Instruct-2507-GGUF";
      filename := "Qwen3-4B-Instruct-2507-Q8_0.gguf";
      description := "Qwen3 4B Q8_0 - High quality";
      tier := "medium"; size_gb := 43 |});
  ("qwen3-4b-f16",
   {| repo_id := "unsloth/Qwen3-4B-Instruct-2507-GGUF";
      filename := "Qwen3-4B-Instruct-2507-F16.gguf";
      description := "Qwen3 4B F16 - Full precision";
      tier := "medium"; size_gb := 80 |});
  ("qwen2.5-72b-q4",
   {| repo_id := "Qwen/Qwen2.5-72B-Instruct-GGUF";
      filename := "qwen2.5-72b-instruct-q4_k_m.gguf";
      description := "Qwen2.5 72B Q4_K_M - Heavy tier";
      tier := "heavy"; size_gb := 420 |});
  ("deepseek-coder-v2",
   {| repo_id := "deepseek-ai/DeepSeek-Coder-V2-Lite-Instruct";
      filename := "deepseek-coder-v2-lite-instruct-q5_k_m.gguf";
      description := "DeepSeek Coder V2 - Code tasks";
      tier := "specialized"; size_gb := 105 |})
].

Definition PRESETS : list (string * list string) := [
  ("minimal", ["qwen3-4b-q5"]);
  ("recommended", ["qwen2.5-1.5b-q5"; "qwen3-4b-q5"; "qwen2.5-7b-q5"]);
  ("production",
   ["qwen2.5-1.5b-q5"; "qwen3-4b-q5"; "qwen2.5-7b-q5"; "deepseek-coder-v2"]);
  ("qwen3-all", ["qwen3-4b-q4"; "qwen3-4b-q5"; "qwen3-4b-q6"; "qwen3-4b-q8"]);
  ("qwen3-best", ["qwen3-4b-q6"; "qwen3-4b-q8"])
].

(** [d.get(k)], and with it [k in d] and [d[k]]. *)
Fixpoint dict_get {V : Type} (d : list (string * V)) (k : string) : option V :=
  match d with
  | [] => None
  | (k', v) :: d' => if String.eqb k' k then Some v else dict_get d' k
  end.

Definition dict_keys {V : Type} (d : list (string * V)) : list string :=
  map fst d.

(* ===================================================================== *)
(** ** The world the script runs in *)
(* ===================================================================== *)

(** A [pathlib.Path] after [resolve()]: the components below the root. *)
Definition Path := list string.

(** [models_dir / filename] *)
Definition path_join (dir : Path) (name : string) : Path := (dir ++ [name])%list.

(** [str(path)] *)
Definition path_str (p : Path) : string := "/" ++ PyStr.join "/" p.

(** [path.name] *)
Definition path_name (p : Path) : string := List.last p EmptyString.

(** [path.parent] *)
Definition path_parent (p : Path) : Path := List.removelast p.

(** The keyword arguments [download_model] passes to [hf_hub_download]. *)
Record FetchArgs := {
  arg_repo_id : string;
  arg_filename : string;
  arg_local_dir : Path;
  arg_local_dir_use_symlinks : bool;
  arg_token : option string;
  arg_resume_download : bool
}.

(** The call [hf_hub_download(repo_id=repo_id, filename=filename,
    local_dir=str(models_dir), local_dir_use_symlinks=False, token=token,
    resume_download=True)] of [download_model]. *)
Definition fetch_args (info : ModelInfo) (models_dir : Path)
    (token : option string) : FetchArgs :=
  {| arg_repo_id := repo_id info;
     arg_filename := filename info;
     arg_local_dir := models_dir;
     arg_local_dir_use_symlinks := false;
     arg_token := token;
     arg_resume_download := true |}.

(** Observable effects, in the order they happen.  [EvCall] and
    [EvReturn] are ghost events marking the entry of [download_model] and
    the value it returns. *)
Inductive event :=
| EvWrite (text : string)
| EvRead (line : string)
| EvMkdir (p : Path)
| EvUnlink (p : Path)
| EvFetch (a : FetchArgs)
| EvListRepo (repo : string) (token : option string)
| EvCall (model_key : string)
| EvReturn (model_key : string) (ok : bool).

(** The files (path to contents; a directory exists through its files),
    the lines still to be read from standard input, and the trace.  The
    file system holds regular files only and refuses no operation: a
    path exists when it names a file, and creating a directory or
    removing an existing file always succeeds.  Lines of input are
    ASCII text. *)
Record World := {
  fs : gmap Path string;
  stdin : list string;
  trace : list event
}.

Inductive exn :=
| EOFError
| KeyError (k : string)
| FileNotFoundError (p : Path)
| NameError (name : string)
| HubError (msg : string).

(** [str(e)] *)
Definition exn_str (e : exn) : string :=
  match e with
  | EOFError => "EOF when reading a line"
  | KeyError k => "'" ++ k ++ "'"
  | FileNotFoundError p =>
      "[Errno 2] No such file or directory: '" ++ path_str p ++ "'"
  | NameError name => "name '" ++ name ++ "' is not defined"
  | HubError msg => msg
  end.

(** How a call ends: a value, an exception, or [sys.exit(code)]
    ([SystemExit] is not an [Exception]: [except Exception] lets it
    through). *)
Inductive result (A : Type) :=
| Ok (a : A)
| Raise (e : exn)
| SysExit (code : Z).
Arguments Ok {A} a.
Arguments Raise {A} e.
Arguments SysExit {A} code.

Definition M (A : Type) : Type := World -> result A * World.

Definition ret {A} (a : A) : M A := fun w => (Ok a, w).

Definition bind {A B} (m : M A) (k : A -> M B) : M B :=
  fun w =>
    match m w with
    | (Ok a, w') => k a w'
    | (Raise e, w') => (Raise e, w')
    | (SysExit c, w') => (SysExit c, w')
    end.

Definition raise {A} (e : exn) : M A := fun w => (Raise e, w).

(** [sys.exit(code)] *)
Definition sys_exit {A} (code : Z) : M A := fun w => (SysExit code, w).

(** [try: m  except Exception as e: h e] *)
Definition try_except {A} (m : M A) (h : exn -> M A) : M A :=
  fun w =>
    match m w with
    | (Raise e, w') => h e w'
    | r => r
    end.

Declare Scope py_scope.
Delimit Scope py_scope with py.
Notation "x <- m ;; k" := (bind m (fun x => k))
  (at level 100, m at next level, right associativity) : py_scope.
Notation "m ;; k" := (bind m (fun _ => k))
  (at level 100, right associativity) : py_scope.
Local Open Scope py_scope.

Definition emit (e : event) : M unit :=
  fun w => (Ok tt, {| fs := fs w; stdin := stdin w; trace := (trace w ++ [e])%list |}).

(** [print(s)] *)
Definition print (s : string) : M unit := emit (EvWrite (s ++ PyStr.nl)).

(** [print(s, end=...)] with an empty line end *)
Definition print_noeol (s : string) : M unit := emit (EvWrite s).

(** [input(prompt)]: writes the prompt, reads one line without its line
    end, raises [EOFError] at end of input. *)
Definition input (prompt : string) : M string :=
  emit (EvWrite prompt) ;;
  fun w =>
    match stdin w with
    | [] => (Raise EOFError, w)
    | line :: rest =>
        (Ok line,
         {| fs := fs w; stdin := rest; trace := (trace w ++ [EvRead line])%list |})
    end.

(** [path.exists()] *)
Definition path_exists (p : Path) : M bool :=
  fun w => (Ok (bool_decide (is_Some (fs w !! p))), w).

(** [path.unlink()] *)
Definition unlink (p : Path) : M unit :=
  fun w =>
    match fs w !! p with
    | None => (Raise (FileNotFoundError p), w)
    | Some _ =>
        (Ok tt,
         {| fs := delete p (fs w); stdin := stdin w;
            trace := (trace w ++ [EvUnlink p])%list |})
    end.

(** [path.stat().st_size] *)
Definition stat_size (p : Path) : M N :=
  fun w =>
    match fs w !! p with
    | None => (Raise (FileNotFoundError p), w)
    | Some content => (Ok (N.of_nat (String.length content)), w)
    end.

(** [path.mkdir(parents=True, exist_ok=True)] *)
Definition mkdir (p : Path) : M unit := emit (EvMkdir p).

(** Insertion into a list sorted by name, for [sorted(...)]. *)
Fixpoint insert_by_name (p : Path) (l : list Path) : list Path :=
  match l with
  | [] => [p]
  | q :: l' =>
      if String.leb (path_name p) (path_name q) then p :: l
      else q :: insert_by_name p l'
  end.

(** [sorted(dir.glob("*.gguf"))] *)
Definition glob_gguf (dir : Path) : M (list Path) :=
  fun w =>
    (Ok (foldr insert_by_name []
           (filter (fun p => path_parent p = dir
                             /\ PyStr.endswith (path_name p) ".gguf" = true)
                   (fst <$> map_to_list (fs w)))), w).

(** [for x in xs: body(x)] *)
Fixpoint for_each {A} (xs : list A) (body : A -> M unit) : M unit :=
  match xs with
  | [] => ret tt
  | x :: xs' => body x ;; for_each xs' body
  end.

(** [for i, x in enumerate(xs, i0): body(i, x)] *)
Fixpoint for_enumerate {A} (i0 : nat) (xs : list A) (body : nat -> A -> M unit)
  : M unit :=
  match xs with
  | [] => ret tt
  | x :: xs' => body i0 x ;; for_enumerate (S i0) xs' body
  end.

(** The counting loop both download paths share:
    [for i, key in enumerate(keys, i0):
       if call(i, key): success_count += 1  else: fail_count += 1]
    continued from the counters reached so far. *)
Fixpoint count_loop (call : nat -> string -> M bool) (i0 : nat)
    (keys : list string) (success_count fail_count : nat) : M (nat * nat) :=
  match keys with
  | [] => ret (success_count, fail_count)
  | key :: keys' =>
      ok <- call i0 key ;;
      if ok : bool
      then count_loop call (S i0) keys' (S success_count) fail_count
      else count_loop call (S i0) keys' success_count (S fail_count)
  end.

(** [sum(MODELS[m]["size_gb"] for m in models)]; a key that is not in the
    catalog raises [KeyError]. *)
Fixpoint sum_size_gb (models : list string) : M N :=
  match models with
  | [] => ret 0%N
  | m :: models' =>
      match dict_get MODELS m with
      | None => raise (KeyError m)
      | Some info =>
          rest <- sum_size_gb models' ;;
          ret (size_gb info + rest)%N
      end
  end.

(* ===================================================================== *)
(** ** Helper functions of the script *)
(* ===================================================================== *)

Definition bar (c : string) : string := PyStr.repeat_str c 60.

Definition print_header : M unit :=
  print (PyStr.nl ++ bar "=") ;;
  print "  MetaMuses Model Download Script" ;;
  print (bar "=" ++ PyStr.nl).

Definition tiers : list string := ["fast"; "medium"; "heavy"; "specialized"].

Definition tier_names : list (string * string) := [
  ("fast", "🚀 Fast Tier (< 500ms)");
  ("medium", "⚡ Medium Tier (< 2s)");
  ("heavy", "🔥 Heavy Tier (< 5s)");
  ("specialized", "🎯 Specialized Models")
].

Definition print_models_table : M unit :=
  print (PyStr.nl ++ "📦 Available Models:" ++ PyStr.nl) ;;
  for_each tiers (fun t =>
    let tier_models :=
      List.filter (fun kv => String.eqb (tier (snd kv)) t) MODELS in
    match tier_models with
    | [] => ret tt
    | _ =>
        print (PyStr.nl ++ default (PyStr.upper t) (dict_get tier_names t) ++ ":") ;;
        print (bar "-") ;;
        for_each tier_models (fun kv =>
          let size_str := PyStr.fmt_tenths (size_gb (snd kv)) ++ " GB" in
          print ("  " ++ PyStr.ljust 20 (fst kv) ++ " " ++ PyStr.rjust 10 size_str
                 ++ "  " ++ description (snd kv)))
    end).

Definition print_presets : M unit :=
  print (PyStr.nl ++ "🎯 Available Presets:" ++ PyStr.nl) ;;
  for_each PRESETS (fun pm =>
    total_size <- sum_size_gb (snd pm) ;;
    print ("  " ++ PyStr.ljust 15 (fst pm) ++ " " ++ PyStr.of_nat (length (snd pm))
           ++ " models (" ++ PyStr.fmt_tenths total_size ++ " GB)") ;;
    for_each (snd pm) (fun model => print ("    - " ++ model))) ;;
  print EmptyString.

(** The body of the loop of [show_summary], with the running total. *)
Fixpoint summary_loop (files : list Path) (total_size : N) : M N :=
  match files with
  | [] => ret total_size
  | file :: files' =>
      size_bytes <- stat_size file ;;
      print ("  " ++ PyStr.ljust 50 (path_name file) ++ " "
             ++ PyStr.rjust 6 (PyStr.fmt_gib size_bytes) ++ " GB") ;;
      summary_loop files' (total_size + size_bytes)%N
  end.

Definition show_summary (models_dir : Path) : M unit :=
  print (PyStr.nl ++ bar "=") ;;
  print "📊 Download Summary" ;;
  print (bar "=" ++ PyStr.nl) ;;
  print ("Models directory: " ++ path_str models_dir) ;;
  print (PyStr.nl ++ "Downloaded models:") ;;
  files <- glob_gguf models_dir ;;
  total_size <- summary_loop files 0%N ;;
  print (PyStr.nl ++ "  Total: " ++ PyStr.fmt_gib total_size ++ " GB") ;;
  print (PyStr.nl ++ "📝 Next steps:") ;;
  print ("  1. Update .env: MODELS_DIR=" ++ path_str models_dir) ;;
  print "  2. Configure model tiers in src/inference/models.rs" ;;
  print "  3. Start API: cargo run --bin metamuse-server" ;;
  print EmptyString.

(** The parsed command line ([argparse.Namespace]). *)
Record Args := {
  args_models : list string;
  args_list : bool;
  args_presets : bool;
  args_preset : option string;
  args_dir : string;
  args_token : option string;
  args_force : bool;
  args_browse : option string
}.

(** The exit status of the process: 0 when [main] returns, the argument of
    [sys.exit], 1 for an uncaught exception. *)
Definition exit_code {A} (r : result A) : Z :=
  match r with
  | Ok _ => 0
  | Raise _ => 1
  | SysExit code => code
  end.

(* ===================================================================== *)
(** ** The downloader and the command dispatcher *)
(* ===================================================================== *)

Section Script.

(** Whether [from huggingface_hub import ...] succeeded. *)
Variable HF_HUB_AVAILABLE : bool.

(** The external fetch: from the arguments and the current world it
    either raises (left, with the message) or returns the local path
    (right), and leaves the files as it chooses. *)
Variable hf_hub_download :
  FetchArgs -> World -> (string + Path) * gmap Path string.

(** The external listing of a repository: raises or returns the names. *)
Variable list_repo_files :
  string -> option string -> World -> string + list string.

(** [os.environ.get("HF_TOKEN")] *)
Variable environ_HF_TOKEN : option string.

(** [Path(dir).resolve()] *)
Variable resolve : string -> Path.


(** A call of the imported [hf_hub_download]; the name is unbound when
    the import failed. *)
Definition call_hf_hub_download (a : FetchArgs) : M Path :=
  if HF_HUB_AVAILABLE then
    emit (EvFetch a) ;;
    fun w =>
      match hf_hub_download a w with
      | (inl msg, fs') =>
          (Raise (HubError msg),
           {| fs := fs'; stdin := stdin w; trace := trace w |})
      | (inr p, fs') =>
          (Ok p, {| fs := fs'; stdin := stdin w; trace := trace w |})
      end
  else raise (NameError "hf_hub_download").

(** A call of the imported [list_repo_files]. *)
Definition call_list_repo_files (repo : string) (token : option string)
  : M (list string) :=
  if HF_HUB_AVAILABLE then
    emit (EvListRepo repo token) ;;
    fun w =>
      match list_repo_files repo token w with
      | inl msg => (Raise (HubError msg), w)
      | inr files => (Ok files, w)
      end
  else raise (NameError "list_repo_files").

Definition list_repo_files_safe (repo : string) (token : option string)
  : M (list string) :=
  try_except
    (files <- call_list_repo_files repo token ;;
     ret (List.filter (fun f => PyStr.endswith f ".gguf") files))
    (fun e =>
       print ("⚠️  Warning: Could not list files in " ++ repo ++ ": "
              ++ exn_str e) ;;
       ret []).

(** The [try] block at the end of [download_model]. *)
Definition fetch_and_report (info : ModelInfo) (models_dir : Path)
    (token : option string) : M bool :=
  try_except
    (downloaded_path <-
       call_hf_hub_download (fetch_args info models_dir token) ;;
     actual_size <- stat_size downloaded_path ;;
     print (PyStr.nl ++ "✓ Successfully downloaded: " ++ filename info ++ " ("
            ++ PyStr.fmt_gib actual_size ++ " GB)") ;;
     ret true)
    (fun e =>
       print (PyStr.nl ++ "❌ Failed to download " ++ filename info ++ ": "
              ++ exn_str e) ;;
       ret false).

(** The statements of [download_model]. *)
Definition download_model_body (model_key : string) (models_dir : Path)
    (token : option string) (force : bool) : M bool :=
  match dict_get MODELS model_key with
  | None =>
      print ("❌ Unknown model: " ++ model_key) ;;
      print "   Run with --list to see available models" ;;
      ret false
  | Some info =>
      print (PyStr.nl ++ bar "=") ;;
      print ("📥 Downloading: " ++ description info) ;;
      print ("   Repository: " ++ repo_id info) ;;
      print ("   File: " ++ filename info) ;;
      print ("   Size: ~" ++ PyStr.fmt_tenths (size_gb info) ++ " GB") ;;
      print (bar "=" ++ PyStr.nl) ;;
      let output_path := path_join models_dir (filename info) in
      already <- path_exists output_path ;;
      if already && negb force then
        print ("✓ Model already exists: " ++ filename info) ;;
        response <- input "  Overwrite? (y/N): " ;;
        let response := PyStr.lower (PyStr.strip response) in
        if negb (String.eqb response "y") then
          print "  Skipping..." ;;
          ret true
        else
          unlink output_path ;;
          fetch_and_report info models_dir token
      else
        fetch_and_report info models_dir token
  end.

(** [download_model], with the ghost events of its entry and return. *)
Definition download_model (model_key : string) (models_dir : Path)
    (token : option string) (force : bool) : M bool :=
  emit (EvCall model_key) ;;
  ok <- download_model_body model_key models_dir token force ;;
  emit (EvReturn model_key ok) ;;
  ret ok.

Definition download_preset (preset_name : string) (models_dir : Path)
    (token : option string) (force : bool) : M (nat * nat) :=
  match dict_get PRESETS preset_name with
  | None =>
      print ("❌ Unknown preset: " ++ preset_name) ;;
      print ("   Available presets: " ++ PyStr.join ", " (dict_keys PRESETS)) ;;
      ret (0, 0)
  | Some models =>
      total_size <- sum_size_gb models ;;
      print (PyStr.nl ++ "🎯 Downloading preset: " ++ preset_name) ;;
      print ("   Models: " ++ PyStr.of_nat (length models)) ;;
      print ("   Total size: ~" ++ PyStr.fmt_tenths total_size ++ " GB") ;;
      count_loop
        (fun i model_key =>
           print_noeol (PyStr.nl ++ "[" ++ PyStr.of_nat i ++ "/"
                        ++ PyStr.of_nat (length models) ++ "] ") ;;
           download_model model_key models_dir token force)
        1 models 0 0
  end.

(** [main], after [parser.parse_args()].  A [return] from [main] is
    the end of the corresponding branch. *)
Definition main (args : Args) : M unit :=
  print_header ;;
  if negb HF_HUB_AVAILABLE then
    print "❌ Error: huggingface_hub is not installed" ;;
    print (PyStr.nl ++ "Install with:") ;;
    print "  pip install huggingface-hub tqdm" ;;
    print (PyStr.nl ++ "Or use the bash script: scripts/download-models.sh") ;;
    sys_exit 1
  else if args_list args then
    print_models_table
  else if args_presets args then
    print_presets
  else if PyStr.truthy_opt (args_browse args) then
    let repo := default EmptyString (args_browse args) in
    print ("📂 Browsing GGUF files in: " ++ repo ++ PyStr.nl) ;;
    files <- list_repo_files_safe repo (args_token args) ;;
    match files with
    | [] => print "  No GGUF files found"
    | _ =>
        for_enumerate 1 files (fun i file =>
          print ("  " ++ PyStr.of_nat i ++ ". " ++ file))
    end
  else
    let token :=
      if PyStr.truthy_opt (args_token args) then args_token args
      else environ_HF_TOKEN in
    let models_dir := resolve (args_dir args) in
    mkdir models_dir ;;
    counts <-
      (if PyStr.truthy_opt (args_preset args) then
         download_preset (default EmptyString (args_preset args)) models_dir token
           (args_force args)
       else if negb (bool_decide (args_models args = [])) then
         count_loop
           (fun _ model_key =>
              download_model model_key models_dir token (args_force args))
           1 (args_models args) 0 0
       else
         print "❌ No models specified" ;;
         print (PyStr.nl ++ "Usage:") ;;
         print "  python scripts/download-models.py --list" ;;
         print "  python scripts/download-models.py qwen3-4b-q5" ;;
         print "  python scripts/download-models.py --preset recommended" ;;
         sys_exit 1) ;;
    let success_count := fst counts in
    let fail_count := snd counts in
    show_summary models_dir ;;
    print (bar "=") ;;
    (if (fail_count =? 0)%nat then
       print ("✓ Successfully downloaded " ++ PyStr.of_nat success_count
              ++ " model(s)")
     else
       print ("⚠️  Downloaded " ++ PyStr.of_nat success_count ++ " model(s), "
              ++ PyStr.of_nat fail_count ++ " failed")) ;;
    print (bar "=" ++ PyStr.nl) ;;
    sys_exit (if (fail_count =? 0)%nat then 0 else 1).


End Script.

(* ===================================================================== *)
(** ** Test doubles and sample runs *)
(* ===================================================================== *)

Module Sample.

(** A fetch that stores [content] under [local_dir / filename] unless a
    file is already there (a resumed transfer finds it complete). *)
Definition fetch_keep (content : string) (a : FetchArgs) (w : World)
  : (string + Path) * gmap Path string :=
  let p := path_join (arg_local_dir a) (arg_filename a) in
  match fs w !! p with
  | Some _ => (inr p, fs w)
  | None => (inr p, <[p := content]> (fs w))
  end.

(** A fetch that always stores [content], replacing what is there. *)
Definition fetch_replace (content : string) (a : FetchArgs) (w : World)
  : (string + Path) * gmap Path string :=
  let p := path_join (arg_local_dir a) (arg_filename a) in
  (inr p, <[p := content]> (fs w)).

(** A mock fetch that returns a path and stores nothing. *)
Definition fetch_path_only (a : FetchArgs) (w : World)
  : (string + Path) * gmap Path string :=
  (inr (path_join (arg_local_dir a) (arg_filename a)), fs w).

(** A fetch that always fails. *)
Definition fetch_fail (a : FetchArgs) (w : World)
  : (string + Path) * gmap Path string :=
  (inl "404 Client Error", fs w).

Definition no_listing (repo : string) (token : option string) (w : World)
  : string + list string := inl "offline".

Definition resolve_models (d : string) : Path := ["srv"; "models"].

Definition models_dir : Path := ["srv"; "models"].

Definition q5_path : Path :=
  path_join models_dir "Qwen3-4B-Instruct-2507-Q5_K_M.gguf".

Definition empty_world : World := {| fs := ∅; stdin := []; trace := [] |}.

(** The Q5 file is present with stale contents. *)
Definition stale_world (answers : list string) : World :=
  {| fs := {[ q5_path := "old" ]}; stdin := answers; trace := [] |}.


(** [download-models.py KEY ...] *)
Definition key_args (keys : list string) : Args :=
  {| args_models := keys; args_list := false; args_presets := false;
     args_preset := None; args_dir := "./models"; args_token := None;
     args_force := false; args_browse := None |}.



(** [download-models.py --browse REPO] *)
Definition browse_args (repo : string) : Args :=
  {| args_models := []; args_list := false; args_presets := false;
     args_preset := None; args_dir := "./models"; args_token := None;
     args_force := false; args_browse := Some repo |}.

(** The arguments of the fetch for the Q5 model. *)
Definition q5_fetch : FetchArgs :=
  {| arg_repo_id := "unsloth/Qwen3-4B-Instruct-2507-GGUF";
     arg_filename := "Qwen3-4B-Instruct-2507-Q5_K_M.gguf";
     arg_local_dir := models_dir;
     arg_local_dir_use_symlinks := false;
     arg_token := None;
     arg_resume_download := true |}.

End Sample.

(* ===================================================================== *)
(** ** Reading the trace *)
(* ===================================================================== *)

(** The keys [download_model] was called with, in order. *)
Definition calls_of (t : list event) : list string :=
  omap (fun e => match e with EvCall k => Some k | _ => None end) t.

(** The values the calls of [download_model] returned, in order. *)
Definition returns_of (t : list event) : list (string * bool) :=
  omap (fun e => match e with EvReturn k b => Some (k, b) | _ => None end) t.

(** The effects outside the console: directory creation, file removal and
    the calls into the hub client. *)
Definition effects_of (t : list event) : list event :=
  List.filter
    (fun e =>
       match e with
       | EvMkdir _ | EvUnlink _ | EvFetch _ | EvListRepo _ _ => true
       | _ => false
       end) t.

(** The text written to standard output, piece by piece. *)
Definition writes_of (t : list event) : list string :=
  omap (fun e => match e with EvWrite s => Some s | _ => None end) t.

(* ===================================================================== *)
(** ** Weakest preconditions *)
(* ===================================================================== *)

Definition post (A : Type) : Type := result A -> World -> Prop.

(** [wp m w Q]: running [m] from [w] ends in a result and a world that
    satisfy [Q].  Every [m] is a total function, so this is total
    correctness. *)
Definition wp {A} (m : M A) (w : World) (Q : post A) : Prop :=
  Q (fst (m w)) (snd (m w)).

(** The world after some more events. *)
Definition log (w : World) (es : list event) : World :=
  {| fs := fs w; stdin := stdin w; trace := (trace w ++ es)%list |}.

(** How many of the logged calls returned [True], how many [False]. *)
Definition successes (rs : list (string * bool)) : nat :=
  length (List.filter (fun kb => snd kb) rs).
Definition failures (rs : list (string * bool)) : nat :=
  length (List.filter (fun kb => negb (snd kb)) rs).

(* ===================================================================== *)
(** ** What [download_model] does, case by case *)
(* ===================================================================== *)

Section Behaviour.

Variable HF_HUB_AVAILABLE : bool.
Variable hf_hub_download :
  FetchArgs -> World -> (string + Path) * gmap Path string.

(** Whether the [try] block succeeds on an answer of the fetch: it
    returned a path and [stat] finds a file there. *)
Definition fetched_ok (res : (string + Path) * gmap Path string) : bool :=
  match fst res with
  | inl _ => false
  | inr p => bool_decide (is_Some (snd res !! p))
  end.

(** The fetch step, started with the files [files]: with the client
    present the fetch is called once, on those files, and decides both
    the files left behind and the result; without it the name lookup
    fails inside the [try] and nothing changes. *)
Definition fetch_post (a : FetchArgs) (files : gmap Path string)
    (r : result bool) (w' : World) : Prop :=
  if HF_HUB_AVAILABLE then
    exists wf,
      fs wf = files /\
      effects_of (trace wf) = effects_of (trace w') /\
      last (effects_of (trace wf)) = Some (EvFetch a) /\
      fs w' = snd (hf_hub_download a wf) /\
      r = Ok (fetched_ok (hf_hub_download a wf))
  else fs w' = files /\ r = Ok false.

(** The effect of a fetch step on the effect log. *)
Definition fetch_effect (a : FetchArgs) : list event :=
  if HF_HUB_AVAILABLE then [EvFetch a] else [].

(** Every path through [download_model], read off the source: from
    the files [files], the pending input [pending] and the effects
    [eff] so far, to the result [r] and the world [w'] it ends in. *)
Definition behaviour (model_key : string) (models_dir : Path)
    (token : option string) (force : bool)
    (files : gmap Path string) (pending : list string) (eff : list event)
    (r : result bool) (w' : World) : Prop :=
  match dict_get MODELS model_key with
  | None =>
      r = Ok false /\ fs w' = files /\ stdin w' = pending /\
      effects_of (trace w') = eff
  | Some info =>
      let output_path := path_join models_dir (filename info) in
      let a := fetch_args info models_dir token in
      if bool_decide (is_Some (files !! output_path)) && negb force then
        match pending with
        | [] =>
            r = Raise EOFError /\ fs w' = files /\ stdin w' = [] /\
            effects_of (trace w') = eff
        | response :: rest =>
            stdin w' = rest /\
            if negb (String.eqb (PyStr.lower (PyStr.strip response)) "y") then
              r = Ok true /\ fs w' = files /\ effects_of (trace w') = eff
            else
              effects_of (trace w') =
                (eff ++ EvUnlink output_path :: fetch_effect a)%list /\
              fetch_post a (delete output_path files) r w'
        end
      else
        stdin w' = pending /\
        effects_of (trace w') = (eff ++ fetch_effect a)%list /\
        fetch_post a files r w'
  end.

(** A run of calls, one after the other: [rs] lists the keys with the
    results returned, and each call starts where the one before it
    ended. *)
Fixpoint chain (models_dir : Path) (token : option string) (force : bool)
    (rs : list (string * bool))
    (files : gmap Path string) (pending : list string) (eff : list event)
    (w' : World) : Prop :=
  match rs with
  | [] => fs w' = files /\ stdin w' = pending /\ effects_of (trace w') = eff
  | (model_key, ok) :: rs' =>
      exists w1,
        behaviour model_key models_dir token force files pending eff (Ok ok) w1 /\
        chain models_dir token force rs'
          (fs w1) (stdin w1) (effects_of (trace w1)) w'
  end.

(** What a counting loop over [keys], started in [w] with the counters
    [s] and [f], ends in: either it has called once per key, in order,
    and the counters have added up the results [rs]; or a prompt found
    no input left, after the results [rs] of the calls before it. *)
Definition loop_post (models_dir : Path) (token : option string)
    (force : bool) (keys : list string) (w : World) (s f : nat)
  : post (nat * nat) :=
  fun r w' =>
    exists rs,
      returns_of (trace w') = (returns_of (trace w) ++ rs)%list /\
      match r with
      | Ok (s', f') =>
          map fst rs = keys /\
          calls_of (trace w') = (calls_of (trace w) ++ keys)%list /\
          s' = s + successes rs /\ f' = f + failures rs /\
          chain models_dir token force rs
            (fs w) (stdin w) (effects_of (trace w)) w'
      | Raise e =>
          e = EOFError /\ force = false /\
          length rs < length keys /\
          length (stdin w) <= length rs /\
          map fst rs = take (length rs) keys /\
          calls_of (trace w') =
            (calls_of (trace w) ++ take (S (length rs)) keys)%list
      | SysExit _ => False
      end.

End Behaviour.


(* ===================================================================== *)
(** ** Vocabulary of the contract *)
(* ===================================================================== *)

(** Events that are neither a call of [download_model] nor an effect
    outside the console. *)
Definition quiet (es : list event) : Prop :=
  calls_of es = [] /\ returns_of es = [] /\ effects_of es = [].

(** A computation that always returns and only talks to the console. *)
Definition console_only {A} (m : M A) : Prop :=
  forall w, exists a es, m w = (Ok a, log w es) /\ quiet es.

(** The line that reports the result of a download run. *)
Definition result_text (counts : nat * nat) : string :=
  if (snd counts =? 0)%nat then
    "✓ Successfully downloaded " ++ PyStr.of_nat (fst counts) ++ " model(s)"
  else
    "⚠️  Downloaded " ++ PyStr.of_nat (fst counts) ++ " model(s), "
    ++ PyStr.of_nat (snd counts) ++ " failed".

(** The boolean form of the consistency of the two tables. *)
Definition presets_consistent : bool :=
  forallb (fun pm => forallb (fun k => bool_decide (is_Some (dict_get MODELS k)))
                             (snd pm))
          PRESETS.

(** The primary actions of the command line. *)
Inductive action :=
| ListModels
| ListPresets
| Browse (repo : string)
| PresetDownload (name : string)
| KeyDownload (keys : list string)
| NoModels.

(** The value of an option that is set to a non-empty string. *)
Definition given (o : option string) : option string :=
  match o with
  | Some s => if PyStr.truthy s then Some s else None
  | None => None
  end.

(** The contract's dispatch rule: [list-models, then list-presets, then
    browse, then preset-download, then explicit-key-download, else the
    "no models specified" error].  An option applies when it is set (to
    a non-empty value, for the ones that take one). *)
Definition selected_action (args : Args) : action :=
  if args_list args then ListModels
  else if args_presets args then ListPresets
  else
    match given (args_browse args) with
    | Some repo => Browse repo
    | None =>
        match given (args_preset args) with
        | Some name => PresetDownload name
        | None =>
            match args_models args with
            | [] => NoModels
            | keys => KeyDownload keys
            end
        end
    end.


Section Dispatch.

Variable HF_HUB_AVAILABLE : bool.
Variable hf_hub_download :
  FetchArgs -> World -> (string + Path) * gmap Path string.
Variable list_repo_files :
  string -> option string -> World -> string + list string.
Variable environ_HF_TOKEN : option string.
Variable resolve : string -> Path.

(** The end of a download run: summary, result line, exit status. *)
Definition finish_downloads (models_dir : Path) (counts : nat * nat)
  : M unit :=
  show_summary models_dir ;;
  print (bar "=") ;;
  (if (snd counts =? 0)%nat then
     print ("✓ Successfully downloaded " ++ PyStr.of_nat (fst counts)
            ++ " model(s)")
   else
     print ("⚠️  Downloaded " ++ PyStr.of_nat (fst counts) ++ " model(s), "
            ++ PyStr.of_nat (snd counts) ++ " failed")) ;;
  print (bar "=" ++ PyStr.nl) ;;
  sys_exit (if (snd counts =? 0)%nat then 0 else 1).

(** What carrying out one action consists of, with the statements of
    the corresponding branch of [main]. *)
Definition perform (args : Args) (a : action) : M unit :=
  let token :=
    if PyStr.truthy_opt (args_token args) then args_token args
    else environ_HF_TOKEN in
  let models_dir := resolve (args_dir args) in
  match a with
  | ListModels => print_models_table
  | ListPresets => print_presets
  | Browse repo =>
      print ("📂 Browsing GGUF files in: " ++ repo ++ PyStr.nl) ;;
      files <- list_repo_files_safe HF_HUB_AVAILABLE list_repo_files
                 repo (args_token args) ;;
      match files with
      | [] => print "  No GGUF files found"
      | _ =>
          for_enumerate 1 files (fun i file =>
            print ("  " ++ PyStr.of_nat i ++ ". " ++ file))
      end
  | PresetDownload name =>
      mkdir models_dir ;;
      counts <- download_preset HF_HUB_AVAILABLE hf_hub_download
                  name models_dir token (args_force args) ;;
      finish_downloads models_dir counts
  | KeyDownload keys =>
      mkdir models_dir ;;
      counts <- count_loop
                  (fun _ model_key =>
                     download_model HF_HUB_AVAILABLE hf_hub_download
                       model_key models_dir token (args_force args))
                  1 keys 0 0 ;;
      finish_downloads models_dir counts
  | NoModels =>
      mkdir models_dir ;;
      print "❌ No models specified" ;;
      print (PyStr.nl ++ "Usage:") ;;
      print "  python scripts/download-models.py --list" ;;
      print "  python scripts/download-models.py qwen3-4b-q5" ;;
      print "  python scripts/download-models.py --preset recommended" ;;
      sys_exit 1
  end.

(** The token and the directory a download run works with. *)
Definition run_token (args : Args) : option string :=
  if PyStr.truthy_opt (args_token args) then args_token args
  else environ_HF_TOKEN.
Definition run_dir (args : Args) : Path := resolve (args_dir args).

(** How a download run over [keys] ends: with the exit status that the
    results [rs] of the calls decide, after the result line; or with
    the [EOFError] of a prompt that found no input. *)
Definition download_run_post (args : Args) (keys : list string) (w : World)
  : post unit :=
  fun r w' =>
    exists rs,
      returns_of (trace w') = (returns_of (trace w) ++ rs)%list /\
      match r with
      | SysExit c =>
          map fst rs = keys /\
          calls_of (trace w') = (calls_of (trace w) ++ keys)%list /\
          c = (if (failures rs =? 0)%nat then 0 else 1)%Z /\
          In (result_text (successes rs, failures rs) ++ PyStr.nl)
             (writes_of (trace w')) /\
          chain HF_HUB_AVAILABLE hf_hub_download
            (run_dir args) (run_token args) (args_force args) rs
            (fs w) (stdin w)
            (effects_of (trace w) ++ [EvMkdir (run_dir args)])%list w'
      | Raise e =>
          e = EOFError /\ args_force args = false /\
          length rs < length keys /\ length (stdin w) <= length rs
      | Ok _ => False
      end.

(** How each action ends. *)
Definition action_post (args : Args) (a : action) (w : World) : post unit :=
  fun r w' =>
    match a with
    | ListModels | ListPresets =>
        r = Ok tt /\ fs w' = fs w /\
        calls_of (trace w') = calls_of (trace w) /\
        returns_of (trace w') = returns_of (trace w) /\
        effects_of (trace w') = effects_of (trace w)
    | Browse _ =>
        r = Ok tt /\ fs w' = fs w /\
        calls_of (trace w') = calls_of (trace w) /\
        returns_of (trace w') = returns_of (trace w)
    | PresetDownload name =>
        download_run_post args (default [] (dict_get PRESETS name)) w r w'
    | KeyDownload keys => download_run_post args keys w r w'
    | NoModels =>
        r = SysExit 1 /\ fs w' = fs w /\
        calls_of (trace w') = calls_of (trace w) /\
        returns_of (trace w') = returns_of (trace w) /\
        In ("❌ No models specified" ++ PyStr.nl) (writes_of (trace w')) /\
        In ((PyStr.nl ++ "Usage:") ++ PyStr.nl) (writes_of (trace w'))
    end.

End Dispatch.

(** The effects a download run over [keys] may add once the directory
    is there: the removal of the target file of one of the keys, or a
    fetch for one of them with the directory and the token of the run. *)
Definition run_effect_ok (models_dir : Path) (token : option string)
    (keys : list string) (e : event) : Prop :=
  exists model_key info,
    In model_key keys /\ dict_get MODELS model_key = Some info /\
    (e = EvUnlink (path_join models_dir (filename info)) \/
     e = EvFetch (fetch_args info models_dir token)).

(** The command line with the empty values of [--preset] and [--browse]
    taken out. *)
Definition drop_empty (args : Args) : Args :=
  {| args_models := args_models args;
     args_list := args_list args;
     args_presets := args_presets args;
     args_preset := given (args_preset args);
     args_dir := args_dir args;
     args_token := args_token args;
     args_force := args_force args;
     args_browse := given (args_browse args) |}.

(** The warning of [list_repo_files_safe]. *)
Definition listing_warning (repo : string) (e : exn) : string :=
  ("⚠️  Warning: Could not list files in " ++ repo ++ ": " ++ exn_str e)
  ++ PyStr.nl.








(** The row of [print_models_table] for one entry of the catalog. *)
Definition model_row (kv : string * ModelInfo) : string :=
  ("  " ++ PyStr.ljust 20 (fst kv) ++ " "
   ++ PyStr.rjust 10 (PyStr.fmt_tenths (size_gb (snd kv)) ++ " GB")
   ++ "  " ++ description (snd kv)) ++ PyStr.nl.

(** The first line [print_models_table] writes. *)
Definition table_title : string :=
  (PyStr.nl ++ "📦 Available Models:" ++ PyStr.nl) ++ PyStr.nl.

(** The catalog models of tier [t], in catalog order. *)
Definition tier_models (t : string) : list (string * ModelInfo) :=
  List.filter (fun kv => String.eqb (tier (snd kv)) t) MODELS.

(** What [print_models_table] writes for the tier [t]: nothing when the
    tier has no model, else the heading, the rule and the rows. *)
Definition tier_block (t : string) : list string :=
  match tier_models t with
  | [] => []
  | group =>
      ((PyStr.nl ++ default (PyStr.upper t) (dict_get tier_names t) ++ ":")
         ++ PyStr.nl)
      :: (bar "-" ++ PyStr.nl)
      :: map model_row group
  end.

(* ===================================================================== *)
(** * Proofs *)
(* ===================================================================== *)


Example strip_lower_Y : PyStr.lower (PyStr.strip "  Y 	") = "y".
Proof. reflexivity. Qed.

Example fmt_gib_eighth : PyStr.fmt_gib (2 ^ 27) = "0.12".
Proof. vm_compute. reflexivity. Qed.

Example fmt_tenths_58 : PyStr.fmt_tenths 58 = "5.8".
Proof. reflexivity. Qed.

Lemma calls_of_app t1 t2 : calls_of (t1 ++ t2)%list = (calls_of t1 ++ calls_of t2)%list.
Proof. apply omap_app. Qed.

Lemma returns_of_app t1 t2 :
  returns_of (t1 ++ t2)%list = (returns_of t1 ++ returns_of t2)%list.
Proof. apply omap_app. Qed.

Lemma effects_of_app t1 t2 :
  effects_of (t1 ++ t2)%list = (effects_of t1 ++ effects_of t2)%list.
Proof. apply List.filter_app. Qed.

Lemma writes_of_app t1 t2 :
  writes_of (t1 ++ t2)%list = (writes_of t1 ++ writes_of t2)%list.
Proof. apply omap_app. Qed.

Create Rewrite HintDb trace_proj.
#[global] Hint Rewrite calls_of_app returns_of_app effects_of_app writes_of_app
  : trace_proj.

(* ===================================================================== *)
(** ** Rules of the weakest-precondition calculus *)
(* ===================================================================== *)


Section WpRules.

Context {A B : Type}.

Lemma wp_mono (m : M A) w (P Q : post A) :
  wp m w P -> (forall r w', P r w' -> Q r w') -> wp m w Q.
Proof. unfold wp. auto. Qed.

Lemma wp_ret (a : A) w (Q : post A) : Q (Ok a) w -> wp (ret a) w Q.
Proof. auto. Qed.

Lemma wp_raise e w (Q : post A) : Q (Raise e) w -> wp (raise e) w Q.
Proof. auto. Qed.

Lemma wp_sys_exit c w (Q : post A) : Q (SysExit c) w -> wp (sys_exit c) w Q.
Proof. auto. Qed.

Lemma wp_bind (m : M A) (k : A -> M B) w (Q : post B) :
  wp m w (fun r w' =>
            match r with
            | Ok a => wp (k a) w' Q
            | Raise e => Q (Raise e) w'
            | SysExit c => Q (SysExit c) w'
            end) ->
  wp (bind m k) w Q.
Proof.
  unfold wp, bind. destruct (m w) as [[a|e|c] w']; auto.
Qed.

Lemma wp_try_except (m : M A) (h : exn -> M A) w (Q : post A) :
  wp m w (fun r w' =>
            match r with
            | Raise e => wp (h e) w' Q
            | _ => Q r w'
            end) ->
  wp (try_except m h) w Q.
Proof.
  unfold wp, try_except. destruct (m w) as [[a|e|c] w']; auto.
Qed.

(** Sequencing after a step that cannot fail. *)
Lemma wp_emit_then e (k : unit -> M A) w (Q : post A) :
  wp (k tt) (log w [e]) Q -> wp (bind (emit e) k) w Q.
Proof. auto. Qed.

Lemma wp_print_then s (k : unit -> M A) w (Q : post A) :
  wp (k tt) (log w [EvWrite (s ++ PyStr.nl)]) Q -> wp (bind (print s) k) w Q.
Proof. auto. Qed.

Lemma wp_print_noeol_then s (k : unit -> M A) w (Q : post A) :
  wp (k tt) (log w [EvWrite s]) Q -> wp (bind (print_noeol s) k) w Q.
Proof. auto. Qed.

Lemma wp_mkdir_then p (k : unit -> M A) w (Q : post A) :
  wp (k tt) (log w [EvMkdir p]) Q -> wp (bind (mkdir p) k) w Q.
Proof. auto. Qed.

Lemma wp_path_exists_then p (k : bool -> M A) w (Q : post A) :
  wp (k (bool_decide (is_Some (fs w !! p)))) w Q ->
  wp (bind (path_exists p) k) w Q.
Proof. auto. Qed.

Lemma wp_input_then prompt (k : string -> M A) w (Q : post A) :
  match stdin w with
  | [] => Q (Raise EOFError) (log w [EvWrite prompt])
  | line :: rest =>
      wp (k line)
         {| fs := fs w; stdin := rest;
            trace := (trace w ++ [EvWrite prompt; EvRead line])%list |} Q
  end ->
  wp (bind (input prompt) k) w Q.
Proof.
  unfold wp, input, bind, emit, log. cbn [fs stdin trace].
  destruct (stdin w); cbn [fst snd]; rewrite <- ?app_assoc; auto.
Qed.

Lemma wp_unlink_then p (k : unit -> M A) w (Q : post A) :
  match fs w !! p with
  | None => Q (Raise (FileNotFoundError p)) w
  | Some _ =>
      wp (k tt)
         {| fs := delete p (fs w); stdin := stdin w;
            trace := (trace w ++ [EvUnlink p])%list |} Q
  end ->
  wp (bind (unlink p) k) w Q.
Proof. unfold wp, bind, unlink. destruct (fs w !! p); auto. Qed.

Lemma wp_stat_size_then p (k : N -> M A) w (Q : post A) :
  match fs w !! p with
  | None => Q (Raise (FileNotFoundError p)) w
  | Some content => wp (k (N.of_nat (String.length content))) w Q
  end ->
  wp (bind (stat_size p) k) w Q.
Proof. unfold wp, bind, stat_size. destruct (fs w !! p); auto. Qed.

End WpRules.

Lemma wp_emit e w (Q : post unit) : Q (Ok tt) (log w [e]) -> wp (emit e) w Q.
Proof. auto. Qed.

Lemma wp_print s w (Q : post unit) :
  Q (Ok tt) (log w [EvWrite (s ++ PyStr.nl)]) -> wp (print s) w Q.
Proof. auto. Qed.

Lemma log_log w es1 es2 : log (log w es1) es2 = log w (es1 ++ es2)%list.
Proof. unfold log. cbn. by rewrite app_assoc. Qed.

(** One step of symbolic execution. *)
Ltac wp_step :=
  first
    [ apply wp_print_then
    | apply wp_print_noeol_then
    | apply wp_emit_then
    | apply wp_mkdir_then
    | apply wp_path_exists_then
    | apply wp_input_then
    | apply wp_unlink_then
    | apply wp_stat_size_then
    | apply wp_ret
    | apply wp_raise
    | apply wp_sys_exit
    | apply wp_print
    | apply wp_emit ].

Ltac wp_steps := repeat wp_step.

(** Bring the projections of the trace in the goal to normal form. *)
Ltac tr_norm :=
  cbn [fs stdin trace log];
  autorewrite with trace_proj;
  cbn [calls_of returns_of effects_of writes_of omap list_omap List.filter app].

(* ===================================================================== *)
(** ** [download_model] meets its case-by-case description *)
(* ===================================================================== *)

Section DownloadModel.

Variable HF_HUB_AVAILABLE : bool.
Variable hf_hub_download :
  FetchArgs -> World -> (string + Path) * gmap Path string.

Lemma fetch_and_report_spec info models_dir token w :
  wp (fetch_and_report HF_HUB_AVAILABLE hf_hub_download info models_dir token) w
     (fun r w' =>
        stdin w' = stdin w /\
        calls_of (trace w') = calls_of (trace w) /\
        returns_of (trace w') = returns_of (trace w) /\
        effects_of (trace w') =
          (effects_of (trace w)
             ++ fetch_effect HF_HUB_AVAILABLE
                  (fetch_args info models_dir token))%list /\
        fetch_post HF_HUB_AVAILABLE hf_hub_download
          (fetch_args info models_dir token) (fs w) r w').
Proof.
  unfold fetch_and_report, call_hf_hub_download, fetch_post, fetch_effect.
  apply wp_try_except, wp_bind.
  destruct HF_HUB_AVAILABLE.
  - apply wp_emit_then.
    set (a := fetch_args info models_dir token).
    assert (Hwf : exists wf, wf = log w [EvFetch a]) by eauto.
    destruct Hwf as [wf Hwf]. rewrite <- Hwf.
    assert (Hlast : last (effects_of (trace wf)) = Some (EvFetch a)).
    { subst wf. tr_norm. apply last_snoc. }
    assert (Heff : effects_of (trace wf)
                   = (effects_of (trace w) ++ [EvFetch a])%list).
    { subst wf. by tr_norm. }
    assert (Hin : stdin wf = stdin w) by (by subst wf).
    assert (Hfs : fs wf = fs w) by (by subst wf).
    assert (Hc : calls_of (trace wf) = calls_of (trace w)).
    { subst wf. tr_norm. apply app_nil_r. }
    assert (Hr : returns_of (trace wf) = returns_of (trace w)).
    { subst wf. tr_norm. apply app_nil_r. }
    clear Hwf.
    unfold wp at 1. cbn [fst snd].
    destruct (hf_hub_download a wf) as [[msg|p] fs'] eqn:Hfetch; cbn [fst snd].
    + wp_steps. tr_norm. rewrite ?app_nil_r.
      repeat split; try done.
      exists wf. rewrite Hfetch, ?app_nil_r. done.
    + apply wp_stat_size_then. cbn [fs].
      destruct (fs' !! p) as [content|] eqn:Hp.
      * wp_steps. tr_norm. rewrite ?app_nil_r.
        repeat split; try done.
        exists wf. rewrite Hfetch. unfold fetched_ok. cbn [fst snd].
        rewrite Hp, ?app_nil_r. done.
      * wp_steps. tr_norm. rewrite ?app_nil_r.
        repeat split; try done.
        exists wf. rewrite Hfetch. unfold fetched_ok. cbn [fst snd].
        rewrite Hp, ?app_nil_r. done.
  - apply wp_raise. wp_steps. tr_norm. by rewrite ?app_nil_r.
Qed.

Lemma download_model_body_spec model_key models_dir token force w :
  wp (download_model_body HF_HUB_AVAILABLE hf_hub_download
        model_key models_dir token force) w
     (fun r w' =>
        calls_of (trace w') = calls_of (trace w) /\
        returns_of (trace w') = returns_of (trace w) /\
        behaviour HF_HUB_AVAILABLE hf_hub_download
          model_key models_dir token force
          (fs w) (stdin w) (effects_of (trace w)) r w').
Proof.
  unfold download_model_body, behaviour.
  destruct (dict_get MODELS model_key) as [info|].
  2: { wp_steps. tr_norm. by rewrite ?app_nil_r. }
  wp_steps. cbn [fs log].
  destruct (bool_decide (is_Some (fs w !! path_join models_dir (filename info)))
            && negb force) eqn:Hask.
  - wp_steps. cbn [stdin log fs trace].
    destruct (stdin w) as [|response rest] eqn:Hin.
    { tr_norm. by rewrite ?app_nil_r. }
    destruct (negb (PyStr.lower (PyStr.strip response) =? "y")) eqn:Hans.
    { wp_steps. tr_norm. by rewrite ?app_nil_r. }
    wp_steps. cbn [fs].
    destruct (fs w !! path_join models_dir (filename info)) as [old|] eqn:Hold.
    2: { exfalso. apply andb_true_iff in Hask as [Hask _].
         apply bool_decide_eq_true in Hask. by destruct Hask. }
    eapply wp_mono; [apply fetch_and_report_spec|].
    intros r w' (Hin' & Hc & Hr & He & Hf). revert Hin' Hc Hr He Hf.
    tr_norm. rewrite ?app_nil_r. intros Hin' Hc Hr He Hf.
    rewrite <- !app_assoc in He. done.
  - eapply wp_mono; [apply fetch_and_report_spec|].
    intros r w' (Hin' & Hc & Hr & He & Hf). revert Hin' Hc Hr He Hf.
    tr_norm. rewrite ?app_nil_r. intros Hin' Hc Hr He Hf. done.
Qed.

Lemma fetch_post_ext a files r w1 w2 :
  fs w2 = fs w1 -> effects_of (trace w2) = effects_of (trace w1) ->
  fetch_post HF_HUB_AVAILABLE hf_hub_download a files r w1 ->
  fetch_post HF_HUB_AVAILABLE hf_hub_download a files r w2.
Proof.
  unfold fetch_post. intros -> ->. done.
Qed.

(** [behaviour] looks at the final world only through its files, its
    pending input and its effects. *)
Lemma behaviour_ext model_key models_dir token force files pending eff r w1 w2 :
  fs w2 = fs w1 -> stdin w2 = stdin w1 ->
  effects_of (trace w2) = effects_of (trace w1) ->
  behaviour HF_HUB_AVAILABLE hf_hub_download
    model_key models_dir token force files pending eff r w1 ->
  behaviour HF_HUB_AVAILABLE hf_hub_download
    model_key models_dir token force files pending eff r w2.
Proof.
  unfold behaviour. intros Hf Hi He.
  destruct (dict_get MODELS model_key) as [info|]; cbv zeta;
    repeat case_match; rewrite ?Hf, ?Hi, ?He;
    intuition eauto using fetch_post_ext.
Qed.

(** A call of [download_model] never leaves through [sys.exit]. *)
Lemma behaviour_no_exit model_key models_dir token force files pending eff c w' :
  ~ behaviour HF_HUB_AVAILABLE hf_hub_download
      model_key models_dir token force files pending eff (SysExit c) w'.
Proof.
  unfold behaviour, fetch_post.
  destruct (dict_get MODELS model_key) as [info|]; cbv zeta;
    repeat case_match; intros Hbeh; decompose [and ex] Hbeh; discriminate.
Qed.

(** The same for [download_model], with its ghost events: the call is
    logged once and the result is logged when it returns. *)
Lemma download_model_spec model_key models_dir token force w :
  wp (download_model HF_HUB_AVAILABLE hf_hub_download
        model_key models_dir token force) w
     (fun r w' =>
        calls_of (trace w') = (calls_of (trace w) ++ [model_key])%list /\
        returns_of (trace w') =
          (returns_of (trace w)
             ++ match r with Ok b => [(model_key, b)] | _ => [] end)%list /\
        behaviour HF_HUB_AVAILABLE hf_hub_download
          model_key models_dir token force
          (fs w) (stdin w) (effects_of (trace w)) r w').
Proof.
  unfold download_model. apply wp_emit_then, wp_bind.
  eapply wp_mono; [apply download_model_body_spec|].
  intros r w' (Hc & Hr & Hb). revert Hc Hr Hb.
  tr_norm. rewrite ?app_nil_r. intros Hc Hr Hb.
  destruct r as [b|e|c].
  - wp_steps. tr_norm. rewrite ?app_nil_r, Hc, Hr.
    repeat split; try done.
    eapply behaviour_ext; [| | |exact Hb]; try done.
    tr_norm. by rewrite app_nil_r.
  - done.
  - by apply behaviour_no_exit in Hb.
Qed.


End DownloadModel.

(* ===================================================================== *)
(** ** Single downloads *)
(* ===================================================================== *)

Section SingleDownload.

Variable HF_HUB_AVAILABLE : bool.
Variable hf_hub_download :
  FetchArgs -> World -> (string + Path) * gmap Path string.

Lemma download_model_unknown_eq model_key models_dir token force w :
  dict_get MODELS model_key = None ->
  download_model HF_HUB_AVAILABLE hf_hub_download
    model_key models_dir token force w =
    (Ok false,
     log w [EvCall model_key;
            EvWrite (("❌ Unknown model: " ++ model_key) ++ PyStr.nl);
            EvWrite ("   Run with --list to see available models" ++ PyStr.nl);
            EvReturn model_key false]).
Proof.
  intros Hnone. unfold download_model, download_model_body.
  rewrite Hnone. unfold bind, print, emit, ret, log. cbn [fs stdin trace].
  by rewrite <- !app_assoc.
Qed.

(** C4: for a key that is not in the catalog, [download_model] returns
    the failure result at once, whatever the directory, the token and
    the force flag are: it prints the unknown-model message, leaves the
    files and the pending input as they are, and performs no effect
    outside the console (no directory creation, no removal, no call
    into the hub client). *)
Theorem download_model_unknown_key model_key models_dir token force w :
  dict_get MODELS model_key = None ->
  let out := download_model HF_HUB_AVAILABLE hf_hub_download
               model_key models_dir token force w in
  fst out = Ok false /\
  fs (snd out) = fs w /\
  stdin (snd out) = stdin w /\
  effects_of (trace (snd out)) = effects_of (trace w) /\
  writes_of (trace (snd out)) =
    (writes_of (trace w)
       ++ [(("❌ Unknown model: " ++ model_key) ++ PyStr.nl)%string;
           ("   Run with --list to see available models" ++ PyStr.nl)%string])%list.
Proof.
  intros Hnone out. subst out.
  rewrite download_model_unknown_eq by done.
  cbn [fst snd]. tr_norm. by rewrite app_nil_r.
Qed.


(** With [force] the prompt block is skipped as a whole: the fetch is
    the only effect, and it is started on the files as they were. *)
Lemma download_model_force_spec model_key info models_dir token w :
  dict_get MODELS model_key = Some info ->
  let a := fetch_args info models_dir token in
  let out := download_model HF_HUB_AVAILABLE hf_hub_download
               model_key models_dir token true w in
  stdin (snd out) = stdin w /\
  effects_of (trace (snd out)) =
    (effects_of (trace w) ++ fetch_effect HF_HUB_AVAILABLE a)%list /\
  fetch_post HF_HUB_AVAILABLE hf_hub_download a (fs w) (fst out) (snd out).
Proof.
  intros Hinfo a out. subst a out.
  pose proof (download_model_spec HF_HUB_AVAILABLE hf_hub_download
                model_key models_dir token true w) as (_ & _ & Hb).
  unfold behaviour in Hb. rewrite Hinfo in Hb. cbv zeta in Hb.
  cbn [negb] in Hb. rewrite andb_false_r in Hb. done.
Qed.

(** How a call can end and what it reads: a result after at most one
    line of input, or [EOFError] at a prompt with no input left. *)
Lemma behaviour_outcome model_key models_dir token force files pending eff r w' :
  behaviour HF_HUB_AVAILABLE hf_hub_download
    model_key models_dir token force files pending eff r w' ->
  match r with
  | Ok _ => length pending <= S (length (stdin w'))
  | Raise e => e = EOFError /\ pending = [] /\ force = false
  | SysExit _ => False
  end.
Proof.
  unfold behaviour, fetch_post.
  destruct (dict_get MODELS model_key) as [info|]; cbv zeta.
  2: { intros (-> & _ & -> & _). lia. }
  destruct (bool_decide _ && negb force) eqn:Hask.
  - apply andb_true_iff in Hask as [_ Hforce].
    apply negb_true_iff in Hforce.
    destruct pending as [|response rest].
    { by intros (-> & _ & _ & _). }
    intros [-> Hcase]. destruct (negb _).
    { destruct Hcase as (-> & _). cbn. lia. }
    destruct Hcase as [_ Hcase].
    destruct HF_HUB_AVAILABLE.
    + destruct Hcase as (wf & _ & _ & _ & _ & ->). cbn. lia.
    + destruct Hcase as (_ & ->). cbn. lia.
  - intros (-> & _ & Hcase).
    destruct HF_HUB_AVAILABLE.
    + destruct Hcase as (wf & _ & _ & _ & _ & ->). lia.
    + destruct Hcase as (_ & ->). lia.
Qed.

End SingleDownload.

(* ===================================================================== *)
(** ** The counting loop *)
(* ===================================================================== *)


Section CountLoop.

Variable HF_HUB_AVAILABLE : bool.
Variable hf_hub_download :
  FetchArgs -> World -> (string + Path) * gmap Path string.
Variable models_dir : Path.
Variable token : option string.
Variable force : bool.

(** The loop body: anything that behaves like one call of
    [download_model] (the preset loop prints a counter first). *)
Variable call : nat -> string -> M bool.
Hypothesis call_spec : forall i model_key w,
  wp (call i model_key) w
     (fun r w' =>
        calls_of (trace w') = (calls_of (trace w) ++ [model_key])%list /\
        returns_of (trace w') =
          (returns_of (trace w)
             ++ match r with Ok b => [(model_key, b)] | _ => [] end)%list /\
        behaviour HF_HUB_AVAILABLE hf_hub_download
          model_key models_dir token force
          (fs w) (stdin w) (effects_of (trace w)) r w').

(** The loop calls once per key, in order, whatever the calls return;
    the counters add up the results; only running out of input at a
    prompt stops it. *)
Lemma count_loop_spec keys : forall i s f w,
  wp (count_loop call i keys s f) w
     (loop_post HF_HUB_AVAILABLE hf_hub_download models_dir token force
        keys w s f).
Proof.
  induction keys as [|k keys IH]; intros i s f w; cbn [count_loop];
    unfold loop_post in *.
  - apply wp_ret. exists []. by rewrite !app_nil_r.
  - apply wp_bind. eapply wp_mono; [apply call_spec|].
    intros r w1 (Hc & Hr & Hbeh).
    pose proof (behaviour_outcome _ _ _ _ _ _ _ _ _ _ _ Hbeh) as Hb.
    destruct r as [b|e|c]; [|by destruct Hb as (-> & Hp & ->);
      exists []; rewrite Hp, Hr, Hc; cbn; repeat split; try done; lia|done].
    assert (Hstep : forall s1 f1,
      s1 + f1 = S (s + f) ->
      (s1 = s + successes [(k, b)] /\ f1 = f + failures [(k, b)]) ->
      wp (count_loop call (S i) keys s1 f1) w1
         (loop_post HF_HUB_AVAILABLE hf_hub_download models_dir token force
            (k :: keys) w s f)).
    { intros s1 f1 _ [Hs1 Hf1].
      eapply wp_mono; [apply IH|].
      intros r2 w2 (rs & Hrs & Hcase).
      exists ((k, b) :: rs). rewrite Hrs, Hr, <- app_assoc.
      split; [done|].
      destruct r2 as [[s' f']|e|c]; [| |done].
      - destruct Hcase as (Hk & Hc2 & -> & -> & Hchain).
        rewrite Hc2, Hc, <- app_assoc. cbn [map fst app]. rewrite Hk.
        repeat split; try done.
        + rewrite Hs1. unfold successes. destruct b; cbn; lia.
        + rewrite Hf1. unfold failures. destruct b; cbn; lia.
        + cbn [chain]. by exists w1.
      - destruct Hcase as (-> & -> & Hlt & Hin & Hk & Hc2).
        rewrite Hc2, Hc, <- app_assoc. cbn [map fst app length take].
        rewrite <- Hk. repeat split; try done; cbn in *; lia. }
    destruct b.
    + apply Hstep; [lia|]. unfold successes, failures. cbn. lia.
    + apply Hstep; [lia|]. unfold successes, failures. cbn. lia.
Qed.

End CountLoop.

(* ===================================================================== *)
(** ** Console-only parts of the script *)
(* ===================================================================== *)

Lemma quiet_nil : quiet [].
Proof. by unfold quiet. Qed.

Lemma quiet_write s : quiet [EvWrite s].
Proof. by unfold quiet. Qed.

Lemma quiet_app es1 es2 : quiet es1 -> quiet es2 -> quiet (es1 ++ es2)%list.
Proof.
  unfold quiet. intros (Hc1 & Hr1 & He1) (Hc2 & Hr2 & He2).
  autorewrite with trace_proj. by rewrite Hc1, Hr1, He1, Hc2, Hr2, He2.
Qed.

Lemma log_nil w : log w [] = w.
Proof. destruct w. unfold log. cbn. by rewrite app_nil_r. Qed.

Section ConsoleOnly.

Context {A B : Type}.

Lemma console_only_ret (a : A) : console_only (ret a).
Proof.
  intros w. exists a, []. split; [by rewrite log_nil | apply quiet_nil].
Qed.

Lemma console_only_bind (m : M A) (k : A -> M B) :
  console_only m -> (forall a, console_only (k a)) -> console_only (bind m k).
Proof.
  intros Hm Hk w. destruct (Hm w) as (a & es1 & Hrun & Hq1).
  destruct (Hk a (log w es1)) as (b & es2 & Hrun2 & Hq2).
  exists b, (es1 ++ es2)%list. unfold bind. rewrite Hrun, Hrun2, log_log.
  split; [done | by apply quiet_app].
Qed.

(** Running a console-only step inside a larger computation. *)
Lemma wp_console_then (m : M A) (k : A -> M B) w (Q : post B) :
  console_only m ->
  (forall a es, quiet es -> wp (k a) (log w es) Q) ->
  wp (bind m k) w Q.
Proof.
  intros Hm Hk. destruct (Hm w) as (a & es & Hrun & Hq).
  unfold wp, bind. rewrite Hrun. by apply Hk.
Qed.

Lemma wp_console (m : M A) w (Q : post A) :
  console_only m ->
  (forall a es, quiet es -> Q (Ok a) (log w es)) ->
  wp m w Q.
Proof.
  intros Hm HQ. destruct (Hm w) as (a & es & Hrun & Hq).
  unfold wp. rewrite Hrun. by apply HQ.
Qed.

End ConsoleOnly.

Lemma console_only_for_each {A} (xs : list A) (body : A -> M unit) :
  (forall x, console_only (body x)) -> console_only (for_each xs body).
Proof.
  intros Hbody. induction xs as [|x xs IH]; cbn [for_each].
  - apply console_only_ret.
  - apply console_only_bind; [apply Hbody | intros _; apply IH].
Qed.

Lemma console_only_for_enumerate {A} (xs : list A) (body : nat -> A -> M unit) i0 :
  (forall i x, console_only (body i x)) ->
  console_only (for_enumerate i0 xs body).
Proof.
  intros Hbody. revert i0. induction xs as [|x xs IH]; intros i0;
    cbn [for_enumerate].
  - apply console_only_ret.
  - apply console_only_bind; [apply Hbody | intros _; apply IH].
Qed.

Lemma console_only_print s : console_only (print s).
Proof. intros w. exists tt, [EvWrite (s ++ PyStr.nl)]. split; [done | apply quiet_write]. Qed.

Ltac console :=
  repeat match goal with
         | |- console_only (print _) => apply console_only_print
         | |- console_only (ret _) => apply console_only_ret
         | |- console_only (bind _ _) => apply console_only_bind; [|intros ?]
         | |- console_only (for_each _ _) =>
             apply console_only_for_each; intros ?
         | |- console_only (for_enumerate _ _ _) =>
             apply console_only_for_enumerate; intros ? ?
         end.

Lemma console_only_print_header : console_only print_header.
Proof. unfold print_header. console. Qed.

Lemma console_only_print_models_table : console_only print_models_table.
Proof.
  unfold print_models_table. console. cbv zeta.
  generalize (List.filter (fun kv : string * ModelInfo => tier (snd kv) =? x)
                MODELS).
  intros [|kv tier_models]; console.
Qed.

Lemma dict_get_In {V} (d : list (string * V)) k v :
  dict_get d k = Some v -> In (k, v) d.
Proof.
  induction d as [|[k' v'] d IH]; cbn [dict_get]; [done|].
  destruct (String.eqb_spec k' k) as [->|_].
  - intros [= ->]. by left.
  - intros Hget. right. by apply IH.
Qed.

Lemma presets_resolve name keys k :
  dict_get PRESETS name = Some keys -> In k keys ->
  is_Some (dict_get MODELS k).
Proof.
  intros Hname Hk. apply dict_get_In in Hname.
  assert (Hall : presets_consistent = true) by reflexivity.
  unfold presets_consistent in Hall.
  rewrite forallb_forall in Hall. specialize (Hall _ Hname). cbn [snd] in Hall.
  rewrite forallb_forall in Hall. specialize (Hall _ Hk).
  by apply bool_decide_eq_true in Hall.
Qed.

(** The size total is pure when every key resolves. *)
Lemma sum_size_gb_ok models w :
  (forall k, In k models -> is_Some (dict_get MODELS k)) ->
  exists total, sum_size_gb models w = (Ok total, w).
Proof.
  induction models as [|m models IH]; intros Hall; cbn [sum_size_gb].
  - by exists 0%N.
  - destruct (Hall m) as [info Hinfo]; [by left|]. rewrite Hinfo.
    destruct IH as [rest Hrest]; [intros k Hk; apply Hall; by right|].
    exists (size_gb info + rest)%N. unfold bind. by rewrite Hrest.
Qed.

Lemma console_only_sum_size_gb models :
  (forall k, In k models -> is_Some (dict_get MODELS k)) ->
  console_only (sum_size_gb models).
Proof.
  intros Hall w. destruct (sum_size_gb_ok models w Hall) as [total Hrun].
  exists total, []. rewrite log_nil. split; [done | apply quiet_nil].
Qed.

Lemma console_only_print_presets : console_only print_presets.
Proof.
  unfold print_presets.
  apply console_only_bind; [console|intros _].
  apply console_only_bind; [|intros _; console].
  assert (Hall : forall pm, In pm PRESETS ->
            forall k, In k (snd pm) -> is_Some (dict_get MODELS k)).
  { intros [name keys] Hpm k Hk. cbn [snd] in Hk.
    assert (Hc : presets_consistent = true) by reflexivity.
    unfold presets_consistent in Hc. rewrite forallb_forall in Hc.
    specialize (Hc _ Hpm). cbn [snd] in Hc. rewrite forallb_forall in Hc.
    specialize (Hc _ Hk). by apply bool_decide_eq_true in Hc. }
  induction PRESETS as [|pm presets IH]; cbn [for_each].
  - console.
  - apply console_only_bind.
    + apply console_only_bind.
      * apply console_only_sum_size_gb. apply Hall. by left.
      * intros total. console.
    + intros _. apply IH. intros pm' Hpm'. apply Hall. by right.
Qed.

Lemma Forall_insert_by_name (P : Path -> Prop) p l :
  P p -> Forall P l -> Forall P (insert_by_name p l).
Proof.
  intros Hp. induction 1 as [|q l Hq Hl IH]; cbn [insert_by_name].
  - by constructor.
  - destruct (String.leb _ _); repeat constructor; auto.
Qed.

Lemma summary_loop_ok files : forall total w,
  Forall (fun p => is_Some (fs w !! p)) files ->
  exists n es, summary_loop files total w = (Ok n, log w es) /\ quiet es.
Proof.
  induction files as [|file files IH]; intros total w Hall; cbn [summary_loop].
  - exists total, []. rewrite log_nil. split; [done | apply quiet_nil].
  - apply Forall_cons in Hall as [[content Hfile] Hall].
    unfold bind at 1, stat_size. rewrite Hfile.
    unfold bind at 1, print, emit. fold (log w [EvWrite
      (("  " ++ PyStr.ljust 50 (path_name file) ++ " "
        ++ PyStr.rjust 6 (PyStr.fmt_gib (N.of_nat (String.length content)))
        ++ " GB") ++ PyStr.nl)]).
    edestruct (IH (total + N.of_nat (String.length content))%N
                 (log w [EvWrite
      (("  " ++ PyStr.ljust 50 (path_name file) ++ " "
        ++ PyStr.rjust 6 (PyStr.fmt_gib (N.of_nat (String.length content)))
        ++ " GB") ++ PyStr.nl)])) as (n & es & Hrun & Hq); [done|].
    rewrite Hrun, log_log. eexists _, _. split; [done|].
    apply quiet_app; [apply quiet_write | done].
Qed.

Lemma glob_gguf_exist dir w :
  exists files, glob_gguf dir w = (Ok files, w) /\
    Forall (fun p => is_Some (fs w !! p)) files.
Proof.
  unfold glob_gguf. eexists. split; [done|].
  assert (Hall : Forall (fun p => is_Some (fs w !! p))
                   (filter (fun p => path_parent p = dir
                                     /\ PyStr.endswith (path_name p) ".gguf" = true)
                           (fst <$> map_to_list (fs w)))).
  { apply Forall_forall. intros p Hp.
    apply list_elem_of_filter in Hp as [_ Hp].
    apply list_elem_of_fmap in Hp as ([p' content] & -> & Hp).
    apply elem_of_map_to_list in Hp. by exists content. }
  induction Hall as [|p l Hp Hl IH]; cbn [foldr]; [constructor|].
  by apply Forall_insert_by_name.
Qed.

Lemma console_only_show_summary models_dir :
  console_only (show_summary models_dir).
Proof.
  unfold show_summary.
  do 5 (apply console_only_bind; [console|intros _]).
  intros w. destruct (glob_gguf_exist models_dir w) as (files & Hglob & Hall).
  destruct (summary_loop_ok files 0%N w Hall) as (n & es & Hrun & Hq).
  assert (Hrest : console_only
    (print (PyStr.nl ++ "  Total: " ++ PyStr.fmt_gib n ++ " GB") ;;
     print (PyStr.nl ++ "📝 Next steps:") ;;
     print ("  1. Update .env: MODELS_DIR=" ++ path_str models_dir) ;;
     print "  2. Configure model tiers in src/inference/models.rs" ;;
     print "  3. Start API: cargo run --bin metamuse-server" ;;
     print EmptyString)) by console.
  destruct (Hrest (log w es)) as (u & es2 & Hrun2 & Hq2).
  exists u, (es ++ es2)%list.
  unfold bind at 1. rewrite Hglob. unfold bind at 1. rewrite Hrun.
  rewrite Hrun2, log_log. split; [done | by apply quiet_app].
Qed.

(** Use the quietness of console output when normalising a trace. *)
Ltac quiet_norm :=
  repeat match goal with
         | H : quiet _ |- _ => destruct H as (? & ? & ?)
         end;
  tr_norm;
  repeat match goal with
         | H : calls_of _ = [] |- _ => rewrite H
         | H : returns_of _ = [] |- _ => rewrite H
         | H : effects_of _ = [] |- _ => rewrite H
         end;
  rewrite ?app_nil_r.

(* ===================================================================== *)
(** ** Presets *)
(* ===================================================================== *)

Section Preset.

Variable HF_HUB_AVAILABLE : bool.
Variable hf_hub_download :
  FetchArgs -> World -> (string + Path) * gmap Path string.

Lemma download_preset_unknown_eq preset_name models_dir token force w :
  dict_get PRESETS preset_name = None ->
  download_preset HF_HUB_AVAILABLE hf_hub_download
    preset_name models_dir token force w =
    (Ok (0, 0),
     log w [EvWrite (("❌ Unknown preset: " ++ preset_name) ++ PyStr.nl);
            EvWrite (("   Available presets: "
                      ++ PyStr.join ", " (dict_keys PRESETS)) ++ PyStr.nl)]).
Proof.
  intros Hnone. unfold download_preset. rewrite Hnone.
  unfold bind, print, emit, ret, log. cbn [fs stdin trace].
  by rewrite <- !app_assoc.
Qed.

(** The body of the preset loop behaves like a call of
    [download_model]: the counter it prints first is console output. *)
Lemma preset_call_spec models_dir token force n i model_key w :
  wp (print_noeol (PyStr.nl ++ "[" ++ PyStr.of_nat i ++ "/"
                   ++ PyStr.of_nat n ++ "] ") ;;
      download_model HF_HUB_AVAILABLE hf_hub_download
        model_key models_dir token force) w
     (fun r w' =>
        calls_of (trace w') = (calls_of (trace w) ++ [model_key])%list /\
        returns_of (trace w') =
          (returns_of (trace w)
             ++ match r with Ok b => [(model_key, b)] | _ => [] end)%list /\
        behaviour HF_HUB_AVAILABLE hf_hub_download
          model_key models_dir token force
          (fs w) (stdin w) (effects_of (trace w)) r w').
Proof.
  apply wp_print_noeol_then.
  eapply wp_mono; [apply download_model_spec|].
  intros r w'. tr_norm. by rewrite ?app_nil_r.
Qed.

Lemma download_preset_spec preset_name keys models_dir token force w :
  dict_get PRESETS preset_name = Some keys ->
  wp (download_preset HF_HUB_AVAILABLE hf_hub_download
        preset_name models_dir token force) w
     (loop_post HF_HUB_AVAILABLE hf_hub_download models_dir token force
        keys w 0 0).
Proof.
  intros Hname. unfold download_preset. rewrite Hname.
  apply wp_console_then.
  { apply console_only_sum_size_gb. intros k Hk.
    by apply (presets_resolve preset_name keys). }
  intros total es Hq. wp_steps.
  eapply wp_mono.
  { apply (count_loop_spec HF_HUB_AVAILABLE hf_hub_download
             models_dir token force).
    intros i model_key w0. apply preset_call_spec. }
  intros r w'. unfold loop_post. intros (rs & Hr & Hcase). revert Hr Hcase.
  quiet_norm. intros Hr Hcase. exists rs. split; [done|].
  destruct r as [[s' f']|e|c]; [| |done]; revert Hcase; quiet_norm; done.
Qed.


End Preset.

(** C7: every key of every preset of the preset table is a key of the
    model catalog, so resolving a preset member succeeds. *)
Theorem presets_keys_in_catalog preset_name keys model_key :
  In (preset_name, keys) PRESETS ->
  In model_key keys ->
  exists info, dict_get MODELS model_key = Some info.
Proof.
  intros Hname Hk.
  assert (Hall : presets_consistent = true) by reflexivity.
  unfold presets_consistent in Hall.
  rewrite forallb_forall in Hall. specialize (Hall _ Hname). cbn [snd] in Hall.
  rewrite forallb_forall in Hall. specialize (Hall _ Hk).
  apply bool_decide_eq_true in Hall. destruct Hall as [info Hinfo].
  by exists info.
Qed.

(* ===================================================================== *)
(** ** The command dispatcher *)
(* ===================================================================== *)

Section Main.

Variable HF_HUB_AVAILABLE : bool.
Variable hf_hub_download :
  FetchArgs -> World -> (string + Path) * gmap Path string.
Variable list_repo_files :
  string -> option string -> World -> string + list string.
Variable environ_HF_TOKEN : option string.
Variable resolve : string -> Path.

Lemma finish_downloads_spec models_dir counts w :
  wp (finish_downloads models_dir counts) w
     (fun r w' =>
        exists es,
          w' = log w es /\ quiet es /\
          In (result_text counts ++ PyStr.nl) (writes_of es) /\
          r = SysExit (if (snd counts =? 0)%nat then 0 else 1)).
Proof.
  unfold finish_downloads, result_text.
  apply wp_console_then; [apply console_only_show_summary|].
  intros _ es Hq. apply wp_print_then, wp_bind.
  destruct (snd counts =? 0)%nat.
  - apply wp_print. wp_steps. rewrite !log_log. eexists. split; [done|].
    split; [repeat apply quiet_app; try apply quiet_write; done|].
    split; [|done].
    autorewrite with trace_proj. rewrite !in_app_iff. cbn. tauto.
  - apply wp_print. wp_steps. rewrite !log_log. eexists. split; [done|].
    split; [repeat apply quiet_app; try apply quiet_write; done|].
    split; [|done].
    autorewrite with trace_proj. rewrite !in_app_iff. cbn. tauto.
Qed.

Lemma chain_ext models_dir token force rs : forall files pending eff w1 w2,
  fs w2 = fs w1 -> stdin w2 = stdin w1 ->
  effects_of (trace w2) = effects_of (trace w1) ->
  chain HF_HUB_AVAILABLE hf_hub_download models_dir token force rs
    files pending eff w1 ->
  chain HF_HUB_AVAILABLE hf_hub_download models_dir token force rs
    files pending eff w2.
Proof.
  induction rs as [|[k b] rs IH]; intros files pending eff w1 w2 Hf Hi He;
    cbn [chain].
  - rewrite Hf, Hi, He. done.
  - intros (w0 & Hb & Hchain). exists w0. split; [done|]. by eapply IH.
Qed.

Lemma list_repo_files_safe_spec repo token w :
  wp (list_repo_files_safe HF_HUB_AVAILABLE list_repo_files repo token) w
     (fun r w' =>
        exists files,
          r = Ok files /\ fs w' = fs w /\
          calls_of (trace w') = calls_of (trace w) /\
          returns_of (trace w') = returns_of (trace w)).
Proof.
  unfold list_repo_files_safe, call_list_repo_files.
  apply wp_try_except, wp_bind.
  destruct HF_HUB_AVAILABLE.
  - apply wp_emit_then. unfold wp at 1.
    destruct (list_repo_files repo token _) as [msg|files]; cbn [fst snd].
    + wp_steps. eexists. tr_norm. by rewrite ?app_nil_r.
    + wp_steps. eexists. tr_norm. by rewrite ?app_nil_r.
  - apply wp_raise. wp_steps. eexists. tr_norm. by rewrite ?app_nil_r.
Qed.

(** The end of a download run whose loop has ended as [loop_post]
    says. *)
Lemma wp_finish_run args keys w r1 w1 :
  loop_post HF_HUB_AVAILABLE hf_hub_download
    (run_dir resolve args) (run_token environ_HF_TOKEN args) (args_force args)
    keys (log w [EvMkdir (run_dir resolve args)]) 0 0 r1 w1 ->
  match r1 with
  | Ok counts =>
      wp (finish_downloads (run_dir resolve args) counts) w1
         (download_run_post HF_HUB_AVAILABLE hf_hub_download
            environ_HF_TOKEN resolve args keys w)
  | Raise e =>
      download_run_post HF_HUB_AVAILABLE hf_hub_download
        environ_HF_TOKEN resolve args keys w (Raise e) w1
  | SysExit c =>
      download_run_post HF_HUB_AVAILABLE hf_hub_download
        environ_HF_TOKEN resolve args keys w (SysExit c) w1
  end.
Proof.
  unfold loop_post, download_run_post. intros (rs & Hr & Hcase).
  revert Hr Hcase. tr_norm. rewrite ?app_nil_r. intros Hr Hcase.
  destruct r1 as [[s f]|e|c]; [| |done].
  - destruct Hcase as (Hk & Hc & -> & -> & Hchain). cbn [Nat.add] in *.
    eapply wp_mono; [apply finish_downloads_spec|].
    intros r w' (es & -> & Hq & Hin & ->). cbn [fst snd] in *.
    exists rs. quiet_norm. repeat split; try done.
    + apply in_app_iff. by right.
    + eapply chain_ext; [| | |exact Hchain]; try done. by quiet_norm.
  - destruct Hcase as (-> & Hf & Hlt & Hin & _). exists rs.
    repeat split; done.
Qed.

Lemma perform_spec args a w :
  wp (perform HF_HUB_AVAILABLE hf_hub_download list_repo_files
        environ_HF_TOKEN resolve args a) w
     (action_post HF_HUB_AVAILABLE hf_hub_download
        environ_HF_TOKEN resolve args a w).
Proof.
  destruct a as [| |repo|name|keys|]; unfold perform, action_post.
  - apply wp_console; [apply console_only_print_models_table|].
    intros [] es Hq. by quiet_norm.
  - apply wp_console; [apply console_only_print_presets|].
    intros [] es Hq. by quiet_norm.
  - apply wp_print_then, wp_bind.
    eapply wp_mono; [apply list_repo_files_safe_spec|].
    intros r w1 (files & -> & Hfs & Hc & Hr). revert Hfs Hc Hr.
    tr_norm. rewrite ?app_nil_r. intros Hfs Hc Hr.
    destruct files as [|file files].
    + apply wp_print. tr_norm. by rewrite ?app_nil_r, Hfs, Hc, Hr.
    + apply wp_console.
      { apply console_only_for_enumerate. intros i x.
        apply console_only_print. }
      intros [] es Hq. quiet_norm. by rewrite Hfs, Hc, Hr.
  - apply wp_mkdir_then, wp_bind.
    destruct (dict_get PRESETS name) as [keys|] eqn:Hname; cbn [default].
    + eapply wp_mono; [by apply download_preset_spec|].
      intros r1 w1 Hloop. by apply wp_finish_run in Hloop.
    + unfold wp at 1. rewrite download_preset_unknown_eq by done.
      cbn [fst snd].
      apply (wp_finish_run args [] w (Ok (0, 0))).
      unfold loop_post, run_dir. exists [].
      cbn [chain successes failures List.filter length Nat.add].
      tr_norm. rewrite ?app_nil_r. repeat split; done.
  - apply wp_mkdir_then, wp_bind.
    eapply wp_mono.
    { apply (count_loop_spec HF_HUB_AVAILABLE hf_hub_download
               (resolve (args_dir args))
               (if PyStr.truthy_opt (args_token args) then args_token args
                else environ_HF_TOKEN)
               (args_force args)).
      intros i model_key w0. apply download_model_spec. }
    intros r1 w1 Hloop. by apply wp_finish_run in Hloop.
  - wp_steps. tr_norm. rewrite ?app_nil_r. repeat split; try done.
    + rewrite !in_app_iff. cbn. tauto.
    + rewrite !in_app_iff. cbn. tauto.
Qed.

(** [action_post] does not see console output before the action. *)
Lemma action_post_log args a w es r w' :
  quiet es ->
  action_post HF_HUB_AVAILABLE hf_hub_download environ_HF_TOKEN resolve
    args a (log w es) r w' ->
  action_post HF_HUB_AVAILABLE hf_hub_download environ_HF_TOKEN resolve
    args a w r w'.
Proof.
  intros Hq. unfold action_post, download_run_post.
  destruct a; quiet_norm; done.
Qed.

Lemma bind_ext {A B} (m : M A) (k1 k2 : A -> M B) w :
  (forall a w', k1 a w' = k2 a w') -> bind m k1 w = bind m k2 w.
Proof.
  intros Hk. unfold bind. destruct (m w) as [[a|e|c] w']; auto.
Qed.

(** With the client library present, [main] is the header followed by
    the action that the priority rule selects. *)
Lemma main_unfold args w :
  HF_HUB_AVAILABLE = true ->
  main HF_HUB_AVAILABLE hf_hub_download list_repo_files
    environ_HF_TOKEN resolve args w =
  (print_header ;;
   perform HF_HUB_AVAILABLE hf_hub_download list_repo_files
     environ_HF_TOKEN resolve args (selected_action args)) w.
Proof.
  intros Hhf. unfold main. rewrite Hhf. cbn [negb].
  apply bind_ext. intros [] w1.
  unfold selected_action, given, PyStr.truthy_opt, perform, finish_downloads.
  destruct (args_list args); [cbv beta iota zeta; reflexivity|].
  destruct (args_presets args); [cbv beta iota zeta; reflexivity|].
  destruct (args_browse args) as [repo|];
    [destruct (PyStr.truthy repo);
       [cbv beta iota zeta; cbn [default]; reflexivity|]|];
    (destruct (args_preset args) as [name|];
       [destruct (PyStr.truthy name);
          [cbv beta iota zeta; cbn [default]; reflexivity|]|];
       (destruct (args_models args) as [|k keys];
          [cbv beta iota zeta;
           rewrite bool_decide_eq_true_2 by done; cbn [negb];
           unfold bind, mkdir, print, emit, sys_exit; reflexivity
          |cbv beta iota zeta;
           rewrite bool_decide_eq_false_2 by done; cbn [negb];
           reflexivity])).
Qed.

Lemma main_spec args w :
  HF_HUB_AVAILABLE = true ->
  wp (main HF_HUB_AVAILABLE hf_hub_download list_repo_files
        environ_HF_TOKEN resolve args) w
     (action_post HF_HUB_AVAILABLE hf_hub_download environ_HF_TOKEN resolve
        args (selected_action args) w).
Proof.
  intros Hhf. unfold wp. rewrite main_unfold by done.
  change (wp (print_header ;;
              perform HF_HUB_AVAILABLE hf_hub_download list_repo_files
                environ_HF_TOKEN resolve args (selected_action args)) w
            (action_post HF_HUB_AVAILABLE hf_hub_download environ_HF_TOKEN
               resolve args (selected_action args) w)).
  apply wp_console_then; [apply console_only_print_header|].
  intros _ es Hq. eapply wp_mono; [apply perform_spec|].
  intros r w'. by apply action_post_log.
Qed.



End Main.

(* ===================================================================== *)
(** ** Runs in which every model is skipped *)
(* ===================================================================== *)



Lemma failures_pos rs k : In (k, false) rs -> failures rs <> 0.
Proof.
  unfold failures. induction rs as [|[k' [|]] rs IH]; cbn; [done| |lia].
  intros [[=]|Hin]. by apply IH.
Qed.

Section Skipped.

Variable HF_HUB_AVAILABLE : bool.
Variable hf_hub_download :
  FetchArgs -> World -> (string + Path) * gmap Path string.
Variable models_dir : Path.
Variable token : option string.


End Skipped.

(* ===================================================================== *)
(** ** The contract of the command line *)
(* ===================================================================== *)

Section Contract.

Variable HF_HUB_AVAILABLE : bool.
Variable hf_hub_download :
  FetchArgs -> World -> (string + Path) * gmap Path string.
Variable list_repo_files :
  string -> option string -> World -> string + list string.
Variable environ_HF_TOKEN : option string.
Variable resolve : string -> Path.





End Contract.

(* ===================================================================== *)
(** ** The Qwen3 Q5 scenario and the force flag *)
(* ===================================================================== *)

(** C8 (as amended): the catalog maps ["qwen3-4b-q5"] to the repository
    ["unsloth/Qwen3-4B-Instruct-2507-GGUF"] and the file
    ["Qwen3-4B-Instruct-2507-Q5_K_M.gguf"];
    [download_model("qwen3-4b-q5", dir, None, force=True)] calls the fetch
    exactly once, with exactly these two identifiers and with resume set,
    and returns success when the fetch returns a path at which a file
    exists; the preset ["minimal"] is exactly [["qwen3-4b-q5"]], and
    downloading it calls [download_model] exactly once. *)
Theorem qwen3_4b_q5_scenario :
  (exists info,
     dict_get MODELS "qwen3-4b-q5" = Some info /\
     repo_id info = "unsloth/Qwen3-4B-Instruct-2507-GGUF" /\
     filename info = "Qwen3-4B-Instruct-2507-Q5_K_M.gguf") /\
  (forall hf_hub_download models_dir w,
     let a := {| arg_repo_id := "unsloth/Qwen3-4B-Instruct-2507-GGUF";
                 arg_filename := "Qwen3-4B-Instruct-2507-Q5_K_M.gguf";
                 arg_local_dir := models_dir;
                 arg_local_dir_use_symlinks := false;
                 arg_token := None;
                 arg_resume_download := true |} in
     let out := download_model true hf_hub_download
                  "qwen3-4b-q5" models_dir None true w in
     effects_of (trace (snd out)) = (effects_of (trace w) ++ [EvFetch a])%list /\
     exists wf,
       fs wf = fs w /\
       last (effects_of (trace wf)) = Some (EvFetch a) /\
       fs (snd out) = snd (hf_hub_download a wf) /\
       (forall p,
          fst (hf_hub_download a wf) = inr p ->
          is_Some (snd (hf_hub_download a wf) !! p) ->
          fst out = Ok true)) /\
  dict_get PRESETS "minimal" = Some ["qwen3-4b-q5"] /\
  (forall HF_HUB_AVAILABLE hf_hub_download models_dir token force w,
     let out := download_preset HF_HUB_AVAILABLE hf_hub_download
                  "minimal" models_dir token force w in
     calls_of (trace (snd out)) = (calls_of (trace w) ++ ["qwen3-4b-q5"])%list).
Proof.
  split; [eexists; repeat split; reflexivity|].
  split; [|split; [reflexivity|]].
  - intros hf_hub_download models_dir w a out. subst a out.
    destruct (dict_get MODELS "qwen3-4b-q5") as [info|] eqn:Hinfo; [|done].
    pose proof (download_model_force_spec true hf_hub_download
                  "qwen3-4b-q5" info models_dir None w Hinfo) as Hforce.
    injection Hinfo as <-.
    cbv zeta in Hforce. destruct Hforce as (_ & Heff & Hpost).
    split; [exact Heff|].
    unfold fetch_post in Hpost. destruct Hpost as (wf & Hfs & _ & Hlast & Hout & Hr).
    exists wf. repeat split; try done.
    intros p Hp Hfile. rewrite Hr. unfold fetched_ok.
    change (fetch_args _ models_dir None) with
      {| arg_repo_id := "unsloth/Qwen3-4B-Instruct-2507-GGUF";
         arg_filename := "Qwen3-4B-Instruct-2507-Q5_K_M.gguf";
         arg_local_dir := models_dir;
         arg_local_dir_use_symlinks := false;
         arg_token := None;
         arg_resume_download := true |}.
    rewrite Hp. by rewrite bool_decide_eq_true_2.
  - intros HF_HUB_AVAILABLE hf_hub_download models_dir token force w out.
    subst out.
    pose proof (download_preset_spec HF_HUB_AVAILABLE hf_hub_download
                  "minimal" ["qwen3-4b-q5"] models_dir token force w eq_refl)
      as Hspec.
    unfold wp, loop_post in Hspec. destruct Hspec as (rs & _ & Hcase).
    destruct (fst (download_preset _ _ _ _ _ _ _)) as [[s f]|e|c]; [| |done].
    + by destruct Hcase as (_ & Hc & _).
    + destruct Hcase as (_ & _ & Hlt & _ & _ & Hc).
      cbn [length] in Hlt. destruct rs; [|cbn in Hlt; lia]. done.
Qed.

(** C1: at the failing input.  The Q5 file is in place with old
    contents and [force] is set: [download_model] calls the fetch without
    removing the file first, so a fetch that finds the file in place
    leaves the old contents there; the prompt path answered ["y"], on the
    same files, does remove the file before the fetch. *)
Theorem download_model_force_leaves_old_file :
  let fetch := Sample.fetch_keep "new" in
  let forced := download_model true fetch "qwen3-4b-q5" Sample.models_dir
                  None true (Sample.stale_world []) in
  let prompted := download_model true fetch "qwen3-4b-q5" Sample.models_dir
                    None false (Sample.stale_world ["y"]) in
  fs (Sample.stale_world []) !! Sample.q5_path = Some "old" /\
  fst forced = Ok true /\
  effects_of (trace (snd forced)) = [EvFetch Sample.q5_fetch] /\
  fs (snd forced) !! Sample.q5_path = Some "old" /\
  fst prompted = Ok true /\
  effects_of (trace (snd prompted)) =
    [EvUnlink Sample.q5_path; EvFetch Sample.q5_fetch] /\
  fs (snd prompted) !! Sample.q5_path = Some "new".
Proof. vm_compute. repeat split; reflexivity. Qed.

(* ===================================================================== *)
(** ** Counterexamples to the claims as first stated *)
(* ===================================================================== *)

(** C8 as first stated fails: a fetch that returns a path without
    putting a file there makes [download_model] return failure, because
    the size check raises inside the [try] block. *)
Lemma download_model_path_without_file :
  let out := download_model true Sample.fetch_path_only "qwen3-4b-q5"
               Sample.models_dir None true Sample.empty_world in
  (forall a w, exists p, fst (Sample.fetch_path_only a w) = inr p) /\
  effects_of (trace (snd out)) = [EvFetch Sample.q5_fetch] /\
  fst out = Ok false.
Proof.
  split; [intros a w; eexists; reflexivity|].
  vm_compute. split; reflexivity.
Qed.


(* ===================================================================== *)
(** ** The theorems at work on sample runs *)
(* ===================================================================== *)

Lemma download_model_unknown_key_witness :
  dict_get MODELS "gpt-5" = None /\
  fst (download_model true Sample.fetch_fail "gpt-5" Sample.models_dir
         None true Sample.empty_world) = Ok false /\
  fs (snd (download_model true Sample.fetch_fail "gpt-5" Sample.models_dir
             None true Sample.empty_world)) = fs Sample.empty_world.
Proof.
  split; [reflexivity|].
  pose proof (download_model_unknown_key true Sample.fetch_fail "gpt-5"
                Sample.models_dir None true Sample.empty_world eq_refl)
    as (Hr & Hfs & _).
  split; [exact Hr | exact Hfs].
Defined.



Lemma presets_keys_in_catalog_witness :
  In ("production",
      ["qwen2.5-1.5b-q5"; "qwen3-4b-q5"; "qwen2.5-7b-q5"; "deepseek-coder-v2"])
     PRESETS /\
  exists info, dict_get MODELS "deepseek-coder-v2" = Some info.
Proof.
  assert (Hp : In ("production",
                   ["qwen2.5-1.5b-q5"; "qwen3-4b-q5"; "qwen2.5-7b-q5";
                    "deepseek-coder-v2"]) PRESETS).
  { right. right. left. reflexivity. }
  split; [exact Hp|].
  apply (presets_keys_in_catalog _ _ "deepseek-coder-v2" Hp).
  right. right. right. left. reflexivity.
Defined.





Lemma qwen3_4b_q5_scenario_witness :
  fst (download_model true (Sample.fetch_replace "new") "qwen3-4b-q5"
         Sample.models_dir None true Sample.empty_world) = Ok true.
Proof.
  destruct qwen3_4b_q5_scenario as (_ & Hdl & _).
  destruct (Hdl (Sample.fetch_replace "new") Sample.models_dir
              Sample.empty_world) as (_ & wf & _ & _ & _ & Hok).
  apply (Hok Sample.q5_path).
  - reflexivity.
  - exists "new". unfold Sample.fetch_replace. cbn [snd].
    apply lookup_insert_eq.
Defined.

(* ===================================================================== *)
(** * Further properties of the script *)
(* ===================================================================== *)

(** ** The paths through [download_model] *)

Section DownloadPaths.

Variable HF_HUB_AVAILABLE : bool.
Variable hf_hub_download :
  FetchArgs -> World -> (string + Path) * gmap Path string.

(** X1: when the target file of a catalog key is absent,
    [download_model] does not prompt, whatever [force] is: it reads no
    input, and its one effect is a single call of the fetch (none when
    the client library is missing), started on the files as they
    were. *)
Theorem download_model_absent_no_prompt model_key info models_dir token force w :
  dict_get MODELS model_key = Some info ->
  fs w !! path_join models_dir (filename info) = None ->
  let a := fetch_args info models_dir token in
  let out := download_model HF_HUB_AVAILABLE hf_hub_download
               model_key models_dir token force w in
  stdin (snd out) = stdin w /\
  effects_of (trace (snd out)) =
    (effects_of (trace w) ++ fetch_effect HF_HUB_AVAILABLE a)%list /\
  fetch_post HF_HUB_AVAILABLE hf_hub_download a (fs w) (fst out) (snd out).
Proof.
  intros Hinfo Habsent a out. subst a out.
  pose proof (download_model_spec HF_HUB_AVAILABLE hf_hub_download
                model_key models_dir token force w) as (_ & _ & Hb).
  unfold behaviour in Hb. rewrite Hinfo in Hb. cbv zeta in Hb.
  rewrite Habsent in Hb.
  rewrite bool_decide_eq_false_2 in Hb by (by intros [? ?]).
  cbn [andb] in Hb. done.
Qed.

(** X2: when the file is in place, [force] is off and the answer,
    stripped and lowercased, is ["y"], the old file is removed first and
    the fetch then starts on files without it: the effects are the
    removal followed by the fetch.  Whatever the fetch leaves behind is
    the outcome; a fetch that changes no file leaves the target
    missing. *)
Theorem download_model_overwrite
    model_key info models_dir token w content response rest :
  dict_get MODELS model_key = Some info ->
  fs w !! path_join models_dir (filename info) = Some content ->
  stdin w = response :: rest ->
  PyStr.lower (PyStr.strip response) = "y" ->
  let output_path := path_join models_dir (filename info) in
  let a := fetch_args info models_dir token in
  let out := download_model true hf_hub_download
               model_key models_dir token false w in
  stdin (snd out) = rest /\
  effects_of (trace (snd out)) =
    (effects_of (trace w) ++ [EvUnlink output_path; EvFetch a])%list /\
  exists wf,
    fs wf = delete output_path (fs w) /\
    fs wf !! output_path = None /\
    fs (snd out) = snd (hf_hub_download a wf) /\
    fst out = Ok (fetched_ok (hf_hub_download a wf)) /\
    (snd (hf_hub_download a wf) = fs wf -> fs (snd out) !! output_path = None).
Proof.
  intros Hinfo Hfile Hin Hans output_path a out. subst output_path a out.
  pose proof (download_model_spec true hf_hub_download
                model_key models_dir token false w) as (_ & _ & Hb).
  unfold behaviour in Hb. rewrite Hinfo in Hb. cbv zeta in Hb.
  rewrite Hfile, Hin in Hb.
  rewrite bool_decide_eq_true_2 in Hb by eauto. cbn [andb negb] in Hb.
  rewrite Hans in Hb. cbn [String.eqb Ascii.eqb Bool.eqb negb] in Hb.
  destruct Hb as (Hrest & Heff & wf & Hfs & _ & _ & Hout & Hr).
  split; [done|]. split; [done|].
  exists wf. repeat split; try done.
  - rewrite Hfs. apply lookup_delete_eq.
  - intros Hsame. rewrite Hout, Hsame, Hfs. apply lookup_delete_eq.
Qed.

(** X3: when the file is in place, [force] is off and no input is left,
    the prompt raises [EOFError], which [download_model] does not catch:
    the call does not return, and the files and the effect log are as
    before. *)
Theorem download_model_prompt_eof model_key info models_dir token w content :
  dict_get MODELS model_key = Some info ->
  fs w !! path_join models_dir (filename info) = Some content ->
  stdin w = [] ->
  let out := download_model HF_HUB_AVAILABLE hf_hub_download
               model_key models_dir token false w in
  fst out = Raise EOFError /\
  fs (snd out) = fs w /\
  effects_of (trace (snd out)) = effects_of (trace w) /\
  returns_of (trace (snd out)) = returns_of (trace w).
Proof.
  intros Hinfo Hfile Hin out. subst out.
  pose proof (download_model_spec HF_HUB_AVAILABLE hf_hub_download
                model_key models_dir token false w) as (_ & Hret & Hb).
  unfold behaviour in Hb. rewrite Hinfo in Hb. cbv zeta in Hb.
  rewrite Hfile, Hin in Hb.
  rewrite bool_decide_eq_true_2 in Hb by eauto. cbn [andb negb] in Hb.
  destruct Hb as (Hr & Hfs & _ & Heff).
  rewrite Hr in Hret. rewrite app_nil_r in Hret. by rewrite Hr.
Qed.

(** X4: [download_model] itself changes no file except, on the
    overwrite path, its own target: the result is either the files as
    they were, or what the one fetch leaves when started on files that
    agree with the old ones at every path other than the target. *)
Theorem download_model_frame model_key info models_dir token force w :
  dict_get MODELS model_key = Some info ->
  let output_path := path_join models_dir (filename info) in
  let out := download_model HF_HUB_AVAILABLE hf_hub_download
               model_key models_dir token force w in
  fs (snd out) = fs w \/
  fs (snd out) = delete output_path (fs w) \/
  exists wf,
    (forall q, q <> output_path -> fs wf !! q = fs w !! q) /\
    fs (snd out) =
      snd (hf_hub_download (fetch_args info models_dir token) wf).
Proof.
  intros Hinfo output_path out. subst output_path out.
  pose proof (download_model_spec HF_HUB_AVAILABLE hf_hub_download
                model_key models_dir token force w) as (_ & _ & Hb).
  unfold behaviour, fetch_post in Hb. rewrite Hinfo in Hb. cbv zeta in Hb.
  destruct (bool_decide _ && negb force).
  - destruct (stdin w) as [|response rest]; [left; by destruct Hb as (_ & ? & _)|].
    destruct Hb as [_ Hb]. destruct (negb _).
    { left. by destruct Hb as (_ & ? & _). }
    destruct Hb as [_ Hb]. destruct HF_HUB_AVAILABLE.
    + destruct Hb as (wf & Hfs & _ & _ & Hout & _).
      right. right. exists wf. split; [|done].
      intros q Hq. rewrite Hfs. by apply lookup_delete_ne.
    + right. left. by destruct Hb.
  - destruct Hb as (_ & _ & Hb). destruct HF_HUB_AVAILABLE.
    + destruct Hb as (wf & Hfs & _ & _ & Hout & _).
      right. right. exists wf. split; [|done]. intros q _. by rewrite Hfs.
    + left. by destruct Hb.
Qed.

End DownloadPaths.

Section FetchFailure.

Variable hf_hub_download :
  FetchArgs -> World -> (string + Path) * gmap Path string.

Lemma fetch_and_report_failure info models_dir token msg w :
  (forall w0, fst (hf_hub_download (fetch_args info models_dir token) w0)
              = inl msg) ->
  wp (fetch_and_report true hf_hub_download info models_dir token) w
     (fun r w' =>
        r = Ok false /\
        last (writes_of (trace w')) =
          Some ((PyStr.nl ++ "❌ Failed to download " ++ filename info ++ ": "
                 ++ msg) ++ PyStr.nl)).
Proof.
  intros Hfail. unfold fetch_and_report, call_hf_hub_download.
  apply wp_try_except, wp_bind, wp_emit_then.
  unfold wp at 1.
  specialize (Hfail (log w [EvFetch (fetch_args info models_dir token)])).
  destruct (hf_hub_download _ _) as [[m|p] fs']; cbn [fst snd] in *; [|done].
  injection Hfail as ->. wp_steps. split; [done|].
  tr_norm. cbn [exn_str]. apply last_snoc.
Qed.

(** X5: a fetch that raises is reported and not retried.  When no
    prompt stands in the way (the file is absent, or [force] is set) and
    the fetch raises with message [msg], [download_model] returns
    failure after exactly one call of the fetch, reads no input, and the
    last line it prints is the failure line carrying [msg]. *)
Theorem download_model_fetch_failure
    model_key info models_dir token force msg w :
  dict_get MODELS model_key = Some info ->
  force = true \/ fs w !! path_join models_dir (filename info) = None ->
  (forall w0, fst (hf_hub_download (fetch_args info models_dir token) w0)
              = inl msg) ->
  let out := download_model true hf_hub_download
               model_key models_dir token force w in
  fst out = Ok false /\
  stdin (snd out) = stdin w /\
  effects_of (trace (snd out)) =
    (effects_of (trace w) ++ [EvFetch (fetch_args info models_dir token)])%list /\
  last (writes_of (trace (snd out))) =
    Some ((PyStr.nl ++ "❌ Failed to download " ++ filename info ++ ": "
           ++ msg) ++ PyStr.nl).
Proof.
  intros Hinfo Hfree Hfail out. subst out.
  assert (Hcond : bool_decide
                    (is_Some (fs w !! path_join models_dir (filename info)))
                  && negb force = false).
  { destruct Hfree as [->|Habsent]; [apply andb_false_r|].
    rewrite Habsent. by rewrite bool_decide_eq_false_2 by (by intros [? ?]). }
  pose proof (download_model_spec true hf_hub_download
                model_key models_dir token force w) as (_ & _ & Hb).
  unfold behaviour, fetch_post in Hb. rewrite Hinfo in Hb. cbv zeta in Hb.
  rewrite Hcond in Hb. destruct Hb as (Hin & Heff & wf & _ & _ & _ & _ & Hr).
  unfold fetched_ok in Hr. rewrite Hfail in Hr.
  split; [done|]. split; [done|]. split; [done|].
  clear Hin Heff Hr wf.
  assert (Hwp : wp (download_model true hf_hub_download
                      model_key models_dir token force) w
                   (fun _ w' =>
                      last (writes_of (trace w')) =
                        Some ((PyStr.nl ++ "❌ Failed to download "
                               ++ filename info ++ ": " ++ msg) ++ PyStr.nl)));
    [|exact Hwp].
  unfold download_model. apply wp_emit_then, wp_bind.
  unfold download_model_body. rewrite Hinfo.
  wp_steps. cbn [fs log]. rewrite Hcond.
  eapply wp_mono; [by apply fetch_and_report_failure|].
  intros r w' (-> & Hlast). wp_steps. tr_norm. by rewrite app_nil_r.
Qed.

End FetchFailure.

(** ** Listing a repository *)

Section Listing.

Variable HF_HUB_AVAILABLE : bool.
Variable list_repo_files :
  string -> option string -> World -> string + list string.

Lemma list_repo_files_safe_wp repo token w :
  wp (list_repo_files_safe HF_HUB_AVAILABLE list_repo_files repo token) w
     (fun r w' =>
        exists files es,
          r = Ok files /\
          w' = log w ((if HF_HUB_AVAILABLE then [EvListRepo repo token] else [])
                      ++ es)%list /\
          if HF_HUB_AVAILABLE then
            match list_repo_files repo token (log w [EvListRepo repo token]) with
            | inr names =>
                files = List.filter (fun f => PyStr.endswith f ".gguf") names /\
                es = []
            | inl msg =>
                files = [] /\
                es = [EvWrite (listing_warning repo (HubError msg))]
            end
          else
            files = [] /\
            es = [EvWrite (listing_warning repo (NameError "list_repo_files"))]).
Proof.
  unfold list_repo_files_safe, call_list_repo_files, listing_warning.
  apply wp_try_except, wp_bind.
  destruct HF_HUB_AVAILABLE.
  - apply wp_emit_then. unfold wp at 1.
    destruct (list_repo_files repo token _) as [msg|names]; cbn [fst snd].
    + wp_steps. eexists _, _. rewrite log_log. repeat split; done.
    + wp_steps. eexists _, _. rewrite app_nil_r. repeat split; done.
  - apply wp_raise. wp_steps. eexists _, _. repeat split; done.
Qed.

(** X6: [list_repo_files_safe] never raises.  It returns only names that
    end in [.gguf]: the listing filtered, in its order, when the listing
    succeeds; the empty list, after a warning that carries the message,
    when the listing raises or the client library is missing.  It
    changes no file, reads no input, and its only effect is the one
    listing call. *)
Theorem list_repo_files_safe_total repo token w :
  let out := list_repo_files_safe HF_HUB_AVAILABLE list_repo_files
               repo token w in
  exists files,
    fst out = Ok files /\
    Forall (fun f => PyStr.endswith f ".gguf" = true) files /\
    fs (snd out) = fs w /\
    stdin (snd out) = stdin w /\
    effects_of (trace (snd out)) =
      (effects_of (trace w)
         ++ if HF_HUB_AVAILABLE then [EvListRepo repo token] else [])%list /\
    if HF_HUB_AVAILABLE then
      match list_repo_files repo token (log w [EvListRepo repo token]) with
      | inr names =>
          files = List.filter (fun f => PyStr.endswith f ".gguf") names /\
          writes_of (trace (snd out)) = writes_of (trace w)
      | inl msg =>
          files = [] /\
          writes_of (trace (snd out)) =
            (writes_of (trace w) ++ [listing_warning repo (HubError msg)])%list
      end
    else
      files = [] /\
      writes_of (trace (snd out)) =
        (writes_of (trace w)
           ++ [listing_warning repo (NameError "list_repo_files")])%list.
Proof.
  intros out. subst out.
  pose proof (list_repo_files_safe_wp repo token w) as Hwp. unfold wp in Hwp.
  destruct Hwp as (files & es & Hr & Hw & Hcase).
  exists files. rewrite Hr, Hw. split; [done|].
  destruct HF_HUB_AVAILABLE.
  - destruct (list_repo_files repo token _) as [msg|names];
      destruct Hcase as [-> ->]; tr_norm; rewrite ?app_nil_r;
      repeat split; try done.
    apply Forall_forall. intros f Hf. apply list_elem_of_In in Hf.
    by apply filter_In in Hf as [_ Hf].
  - destruct Hcase as [-> ->]. tr_norm. rewrite ?app_nil_r. repeat split; done.
Qed.

End Listing.

(** ** Runs of [main] *)

Section Runs.

Variable HF_HUB_AVAILABLE : bool.
Variable hf_hub_download :
  FetchArgs -> World -> (string + Path) * gmap Path string.
Variable list_repo_files :
  string -> option string -> World -> string + list string.
Variable environ_HF_TOKEN : option string.
Variable resolve : string -> Path.

(** With the client library present, a property of the selected action,
    run after the header, is a property of [main]. *)
Lemma main_wp args w (Q : post unit) :
  HF_HUB_AVAILABLE = true ->
  (forall es, quiet es ->
     wp (perform HF_HUB_AVAILABLE hf_hub_download list_repo_files
           environ_HF_TOKEN resolve args (selected_action args))
        (log w es) Q) ->
  wp (main HF_HUB_AVAILABLE hf_hub_download list_repo_files
        environ_HF_TOKEN resolve args) w Q.
Proof.
  intros Hhf Hperform. unfold wp. rewrite main_unfold by done.
  change (wp (print_header ;;
              perform HF_HUB_AVAILABLE hf_hub_download list_repo_files
                environ_HF_TOKEN resolve args (selected_action args)) w Q).
  apply wp_console_then; [apply console_only_print_header|].
  intros _ es Hq. by apply Hperform.
Qed.

(** X7: browsing only lists.  With the client library present and
    [--browse REPO] selected, [main] returns normally whether or not
    the listing succeeds; it changes no file, calls [download_model]
    not at all, does not create the models directory, and its only
    effect is one listing of [REPO] with the token of the command line
    as given (the [HF_TOKEN] variable is not consulted). *)
Theorem main_browse args repo w :
  HF_HUB_AVAILABLE = true ->
  selected_action args = Browse repo ->
  let out := main HF_HUB_AVAILABLE hf_hub_download list_repo_files
               environ_HF_TOKEN resolve args w in
  fst out = Ok tt /\
  fs (snd out) = fs w /\
  calls_of (trace (snd out)) = calls_of (trace w) /\
  effects_of (trace (snd out)) =
    (effects_of (trace w) ++ [EvListRepo repo (args_token args)])%list.
Proof.
  intros Hhf Hact out. subst out.
  apply main_wp; [done|]. intros es Hq. rewrite Hact. unfold perform.
  apply wp_print_then, wp_bind.
  eapply wp_mono; [apply list_repo_files_safe_wp|].
  intros r w1 (files & es1 & -> & -> & Hcase). rewrite Hhf in *.
  assert (Hq1 : quiet es1).
  { destruct (list_repo_files _ _ _); destruct Hcase as [_ ->];
      [apply quiet_write | apply quiet_nil]. }
  destruct files as [|file files].
  - apply wp_print. by quiet_norm.
  - apply wp_console.
    { apply console_only_for_enumerate. intros i x. apply console_only_print. }
    intros [] es2 Hq2. by quiet_norm.
Qed.



End Runs.

(** ** Download runs *)

Lemma run_effect_ok_mono models_dir token keys keys' e :
  (forall k, In k keys -> In k keys') ->
  run_effect_ok models_dir token keys e ->
  run_effect_ok models_dir token keys' e.
Proof.
  intros Hsub (k & info & Hk & Hinfo & He). exists k, info. auto.
Qed.

Section DownloadRuns.

Variable HF_HUB_AVAILABLE : bool.
Variable hf_hub_download :
  FetchArgs -> World -> (string + Path) * gmap Path string.
Variable list_repo_files :
  string -> option string -> World -> string + list string.
Variable environ_HF_TOKEN : option string.
Variable resolve : string -> Path.

Lemma behaviour_effects model_key models_dir token force files pending eff b w1 :
  behaviour HF_HUB_AVAILABLE hf_hub_download
    model_key models_dir token force files pending eff (Ok b) w1 ->
  exists delta,
    effects_of (trace w1) = (eff ++ delta)%list /\
    Forall (run_effect_ok models_dir token [model_key]) delta.
Proof.
  unfold behaviour.
  destruct (dict_get MODELS model_key) as [info|] eqn:Hinfo; cbv zeta.
  2: { intros (_ & _ & _ & ->). exists []. by rewrite app_nil_r. }
  assert (Hfetch : Forall (run_effect_ok models_dir token [model_key])
                     (fetch_effect HF_HUB_AVAILABLE
                        (fetch_args info models_dir token))).
  { unfold fetch_effect. destruct HF_HUB_AVAILABLE; [|constructor].
    repeat constructor. exists model_key, info.
    split; [by left|]. split; [done|]. by right. }
  destruct (bool_decide _ && negb force).
  - destruct pending as [|response rest]; [by intros ([=] & _)|].
    intros [_ Hcase]. destruct (negb _).
    + destruct Hcase as (_ & _ & ->). exists []. by rewrite app_nil_r.
    + destruct Hcase as [-> _]. eexists. split; [done|].
      constructor; [|done]. exists model_key, info.
      split; [by left|]. split; [done|]. by left.
  - intros (_ & -> & _). eexists. split; done.
Qed.

Lemma chain_effects models_dir token force rs : forall files pending eff w',
  chain HF_HUB_AVAILABLE hf_hub_download models_dir token force rs
    files pending eff w' ->
  exists delta,
    effects_of (trace w') = (eff ++ delta)%list /\
    Forall (run_effect_ok models_dir token (map fst rs)) delta.
Proof.
  induction rs as [|[k b] rs IH]; intros files pending eff w'; cbn [chain map fst].
  - intros (_ & _ & ->). exists []. by rewrite app_nil_r.
  - intros (w1 & Hb & Hchain).
    apply behaviour_effects in Hb as (d1 & Heff1 & Hd1).
    apply IH in Hchain as (d2 & Heff2 & Hd2).
    exists (d1 ++ d2)%list. rewrite Heff2, Heff1, <- app_assoc.
    split; [done|]. apply Forall_app. split.
    + eapply Forall_impl; [exact Hd1|]. intros e.
      apply run_effect_ok_mono. intros k' [->|[]]. by left.
    + eapply Forall_impl; [exact Hd2|]. intros e.
      apply run_effect_ok_mono. intros k' Hk'. by right.
Qed.

Lemma chain_unknown models_dir token force rs : forall files pending eff w' k,
  chain HF_HUB_AVAILABLE hf_hub_download models_dir token force rs
    files pending eff w' ->
  In k (map fst rs) -> dict_get MODELS k = None -> In (k, false) rs.
Proof.
  induction rs as [|[k' b] rs IH]; intros files pending eff w' k;
    cbn [chain map fst]; [done|].
  intros (w1 & Hb & Hchain) [->|Hin] Hnone.
  - unfold behaviour in Hb. rewrite Hnone in Hb.
    destruct Hb as ([= ->] & _). by left.
  - right. by eapply IH.
Qed.

(** The run of a download action, read off [main_spec]. *)
Lemma main_download_run args keys w :
  HF_HUB_AVAILABLE = true ->
  selected_action args = KeyDownload keys \/
  (exists name, selected_action args = PresetDownload name /\
                dict_get PRESETS name = Some keys) ->
  download_run_post HF_HUB_AVAILABLE hf_hub_download environ_HF_TOKEN resolve
    args keys w
    (fst (main HF_HUB_AVAILABLE hf_hub_download list_repo_files
            environ_HF_TOKEN resolve args w))
    (snd (main HF_HUB_AVAILABLE hf_hub_download list_repo_files
            environ_HF_TOKEN resolve args w)).
Proof.
  intros Hhf Hact.
  pose proof (main_spec HF_HUB_AVAILABLE hf_hub_download list_repo_files
                environ_HF_TOKEN resolve args w Hhf) as Hmain.
  unfold wp in Hmain.
  destruct Hact as [Hact|(name & Hact & Hname)];
    rewrite Hact in Hmain; unfold action_post in Hmain; [done|].
  by rewrite Hname in Hmain.
Qed.

(** X10: what a completed download run does outside the console.  It
    creates the models directory first; after that it only removes
    target files of requested catalog models and fetches requested
    catalog models, every fetch with the directory of the run, with the
    token of the command line or else of [HF_TOKEN], with resume set and
    without symlinks.  It lists no repository and removes nothing
    else. *)
Theorem main_download_effects args keys w c :
  HF_HUB_AVAILABLE = true ->
  selected_action args = KeyDownload keys \/
  (exists name, selected_action args = PresetDownload name /\
                dict_get PRESETS name = Some keys) ->
  let out := main HF_HUB_AVAILABLE hf_hub_download list_repo_files
               environ_HF_TOKEN resolve args w in
  fst out = SysExit c ->
  exists delta,
    effects_of (trace (snd out)) =
      (effects_of (trace w) ++ EvMkdir (resolve (args_dir args)) :: delta)%list /\
    Forall (run_effect_ok (resolve (args_dir args))
              (if PyStr.truthy_opt (args_token args) then args_token args
               else environ_HF_TOKEN)
              keys) delta.
Proof.
  intros Hhf Hact out Hexit. subst out.
  pose proof (main_download_run args keys w Hhf Hact) as (rs & _ & Hcase).
  rewrite Hexit in Hcase. destruct Hcase as (Hk & _ & _ & _ & Hchain).
  apply chain_effects in Hchain as (delta & Heff & Hdelta).
  exists delta. rewrite Heff, <- app_assoc. split; [done|].
  by rewrite Hk in Hdelta.
Qed.


(** X12: an unknown key among the explicit keys makes the run fail:
    the exit status is 1, whether the run completes (the key counts as a
    failure) or stops at a prompt without input. *)
Theorem main_unknown_key_exit args keys model_key w :
  HF_HUB_AVAILABLE = true ->
  selected_action args = KeyDownload keys ->
  In model_key keys ->
  dict_get MODELS model_key = None ->
  exit_code (fst (main HF_HUB_AVAILABLE hf_hub_download list_repo_files
                    environ_HF_TOKEN resolve args w)) = 1%Z.
Proof.
  intros Hhf Hact Hin Hnone.
  pose proof (main_download_run args keys w Hhf (or_introl Hact))
    as (rs & Hr & Hcase).
  destruct (fst (main _ _ _ _ _ _ _)) as [[]|e|c]; [done|done|].
  destruct Hcase as (Hk & _ & -> & _ & Hchain).
  rewrite <- Hk in Hin.
  pose proof (chain_unknown _ _ _ _ _ _ _ _ _ Hchain Hin Hnone) as Hfalse.
  apply failures_pos in Hfalse. cbn [exit_code]. by destruct (failures rs).
Qed.

(** X13: a prompt without input aborts the run.  When the first
    requested model has its file in place, [force] is off and standard
    input is at its end, [main] ends with the uncaught [EOFError] (no
    summary, no result line), so the exit status is 1. *)
Theorem main_prompt_eof args model_key keys info content w :
  HF_HUB_AVAILABLE = true ->
  selected_action args = KeyDownload (model_key :: keys) ->
  dict_get MODELS model_key = Some info ->
  fs w !! path_join (resolve (args_dir args)) (filename info) = Some content ->
  args_force args = false ->
  stdin w = [] ->
  let out := main HF_HUB_AVAILABLE hf_hub_download list_repo_files
               environ_HF_TOKEN resolve args w in
  fst out = Raise EOFError /\ exit_code (fst out) = 1%Z.
Proof.
  intros Hhf Hact Hinfo Hfile Hforce Hin out. subst out.
  pose proof (main_download_run args (model_key :: keys) w Hhf (or_introl Hact))
    as (rs & Hr & Hcase).
  destruct (fst (main _ _ _ _ _ _ _)) as [[]|e|c]; [done| |].
  - by destruct Hcase as (-> & _).
  - exfalso. destruct Hcase as (Hk & _ & _ & _ & Hchain).
    destruct rs as [|[k b] rs]; [done|]. injection Hk as -> Hk.
    cbn [chain] in Hchain. destruct Hchain as (w1 & Hb & _).
    unfold behaviour, run_dir in Hb. rewrite Hinfo in Hb. cbv zeta in Hb.
    rewrite Hfile, Hforce, Hin in Hb.
    rewrite bool_decide_eq_true_2 in Hb by eauto. cbn [andb negb] in Hb.
    by destruct Hb as ([=] & _).
Qed.

End DownloadRuns.

(** ** Empty option values *)

Section EmptyValues.

Variable HF_HUB_AVAILABLE : bool.
Variable hf_hub_download :
  FetchArgs -> World -> (string + Path) * gmap Path string.
Variable list_repo_files :
  string -> option string -> World -> string + list string.
Variable environ_HF_TOKEN : option string.
Variable resolve : string -> Path.

(** X14: an empty value of [--preset] or [--browse] counts as the option
    not being given: [main] runs exactly as it does on the command line
    without it. *)
Theorem main_ignores_empty_values args w :
  main HF_HUB_AVAILABLE hf_hub_download list_repo_files
    environ_HF_TOKEN resolve args w =
  main HF_HUB_AVAILABLE hf_hub_download list_repo_files
    environ_HF_TOKEN resolve (drop_empty args) w.
Proof.
  unfold main, drop_empty.
  cbn [args_models args_list args_presets args_preset args_dir args_token
       args_force args_browse].
  apply bind_ext. intros [] w1.
  destruct (negb HF_HUB_AVAILABLE); [reflexivity|].
  destruct (args_list args); [reflexivity|].
  destruct (args_presets args); [reflexivity|].
  unfold given, PyStr.truthy_opt.
  destruct (args_browse args) as [repo|];
    [destruct (PyStr.truthy repo) eqn:Hrepo;
       [cbv beta iota; rewrite Hrepo; reflexivity|]|];
    cbv beta iota;
    (destruct (args_preset args) as [name|];
       [destruct (PyStr.truthy name) eqn:Hname;
          cbv beta iota; rewrite ?Hname; reflexivity|reflexivity]).
Qed.

End EmptyValues.

(** ** The summary *)









(** ** Calls that return *)

Section Returns.

Variable HF_HUB_AVAILABLE : bool.
Variable hf_hub_download :
  FetchArgs -> World -> (string + Path) * gmap Path string.

(** X17: [download_model] returns whatever the fetch does.  With
    [force] set, or with a line of input left for the prompt, the call
    returns a boolean (it never raises and never exits), whether the
    key is known or not, whether the client library is there or not,
    and whether the fetch raises, returns a path without a file or
    succeeds; it reads at most one line. *)
Theorem download_model_returns model_key models_dir token force w :
  force = true \/ stdin w <> [] ->
  let out := download_model HF_HUB_AVAILABLE hf_hub_download
               model_key models_dir token force w in
  exists ok,
    fst out = Ok ok /\
    returns_of (trace (snd out)) =
      (returns_of (trace w) ++ [(model_key, ok)])%list /\
    length (stdin w) <= S (length (stdin (snd out))).
Proof.
  intros Hfree out. subst out.
  pose proof (download_model_spec HF_HUB_AVAILABLE hf_hub_download
                model_key models_dir token force w) as (_ & Hret & Hb).
  apply behaviour_outcome in Hb.
  destruct (fst (download_model _ _ _ _ _ _ _)) as [ok|e|c]; [|exfalso|done].
  - by exists ok.
  - destruct Hb as (_ & Hin & Hforce).
    destruct Hfree as [->|Hne]; [done|by apply Hne].
Qed.

End Returns.

(** ** The table of models *)

Lemma for_each_log {A} (body : A -> M unit) (ev : A -> list event) :
  (forall x w, body x w = (Ok tt, log w (ev x))) ->
  forall xs w, for_each xs body w = (Ok tt, log w (concat (map ev xs))).
Proof.
  intros Hbody xs. induction xs as [|x xs IH]; intros w;
    cbn [for_each map concat].
  - by rewrite log_nil.
  - unfold bind. rewrite Hbody, IH. by rewrite log_log.
Qed.

Lemma writes_of_writes (lines : list string) :
  writes_of (map EvWrite lines) = lines.
Proof.
  induction lines as [|s lines IH]; [done|].
  cbn [map]. unfold writes_of in *. cbn [omap list_omap]. by rewrite IH.
Qed.

Lemma tier_body_log t w :
  (let tier_models :=
     List.filter (fun kv => String.eqb (tier (snd kv)) t) MODELS in
   match tier_models with
   | [] => ret tt
   | _ =>
       print (PyStr.nl ++ default (PyStr.upper t) (dict_get tier_names t) ++ ":") ;;
       print (bar "-") ;;
       for_each tier_models (fun kv =>
         let size_str := PyStr.fmt_tenths (size_gb (snd kv)) ++ " GB" in
         print ("  " ++ PyStr.ljust 20 (fst kv) ++ " " ++ PyStr.rjust 10 size_str
                ++ "  " ++ description (snd kv)))
   end)%py w
  = (Ok tt, log w (map EvWrite (tier_block t))).
Proof.
  cbv zeta. unfold tier_block, tier_models.
  generalize (List.filter (fun kv : string * ModelInfo => tier (snd kv) =? t)
                MODELS).
  intros group.
  assert (Hrows : forall w0,
            for_each group (fun kv =>
              print ("  " ++ PyStr.ljust 20 (fst kv) ++ " "
                     ++ PyStr.rjust 10
                          (PyStr.fmt_tenths (size_gb (snd kv)) ++ " GB")
                     ++ "  " ++ description (snd kv))) w0
            = (Ok tt, log w0 (map EvWrite (map model_row group)))).
  { clear. induction group as [|kv group IH]; intros w0; cbn [for_each map].
    - by rewrite log_nil.
    - unfold bind at 1, print at 1, emit at 1. rewrite IH.
      unfold log. cbn [fs stdin trace]. by rewrite <- app_assoc. }
  destruct group as [|kv group]; [by rewrite log_nil|].
  unfold bind at 1, print at 1, emit at 1.
  unfold bind at 1, print at 1, emit at 1.
  rewrite Hrows. unfold log. cbn [fs stdin trace map]. f_equal. f_equal.
  by rewrite <- !app_assoc.
Qed.

(** X18: the table of [--list] shows the whole catalog.  After the
    title, [print_models_table] writes for each of the four tiers, in
    their fixed order, the heading, the rule and the rows of the catalog
    models of that tier in catalog order (nothing for a tier without
    models); and every model of the catalog belongs to exactly one of
    the four tiers, so its row is in the table and no model is left out
    because of its tier. *)
Theorem print_models_table_rows w :
  fst (print_models_table w) = Ok tt /\
  writes_of (trace (snd (print_models_table w))) =
    (writes_of (trace w)
       ++ table_title :: concat (map tier_block tiers))%list /\
  forall kv, In kv MODELS ->
    exists t, In t tiers /\ In kv (tier_models t) /\
              forall t', In kv (tier_models t') -> t' = t.
Proof.
  assert (Hrun : print_models_table w =
            (Ok tt, log w (map EvWrite
                             (table_title :: concat (map tier_block tiers))))).
  { unfold print_models_table. unfold bind at 1, print at 1, emit at 1.
    rewrite (for_each_log _ (fun t => map EvWrite (tier_block t)))
      by (intros t w0; apply tier_body_log).
    unfold log. cbn [fs stdin trace map]. f_equal. f_equal.
    rewrite <- app_assoc. cbn [app]. by rewrite concat_map, map_map. }
  rewrite Hrun. cbn [fst snd]. split; [done|]. split.
  - tr_norm. by rewrite writes_of_writes.
  - intros kv Hkv. exists (tier (snd kv)).
    assert (Hcover : forallb (fun kv' =>
                        existsb (String.eqb (tier (snd kv'))) tiers) MODELS
                     = true) by reflexivity.
    rewrite forallb_forall in Hcover. specialize (Hcover kv Hkv).
    apply existsb_exists in Hcover as (t & Ht & Heq).
    apply String.eqb_eq in Heq. subst t. split; [done|]. split.
    + unfold tier_models. apply filter_In. split; [done|].
      apply String.eqb_refl.
    + intros t' Hin. unfold tier_models in Hin.
      apply filter_In in Hin as [_ Heq]. by apply String.eqb_eq in Heq.
Qed.

(** ** The further properties at sample runs *)

Lemma download_model_absent_no_prompt_witness :
  stdin (snd (download_model true (Sample.fetch_replace "new")
                "qwen3-4b-q5" Sample.models_dir None false
                Sample.empty_world)) = [] /\
  effects_of (trace (snd (download_model true (Sample.fetch_replace "new")
                            "qwen3-4b-q5" Sample.models_dir None false
                            Sample.empty_world)))
    = [EvFetch Sample.q5_fetch].
Proof.
  pose proof (download_model_absent_no_prompt true (Sample.fetch_replace "new")
                "qwen3-4b-q5" _ Sample.models_dir None false
                Sample.empty_world eq_refl eq_refl) as (Hin & Heff & _).
  split; [exact Hin | exact Heff].
Defined.

Lemma download_model_overwrite_witness :
  PyStr.lower (PyStr.strip " Y ") = "y" /\
  effects_of (trace (snd (download_model true (Sample.fetch_replace "new")
                            "qwen3-4b-q5" Sample.models_dir None false
                            (Sample.stale_world [" Y "]))))
    = [EvUnlink Sample.q5_path; EvFetch Sample.q5_fetch].
Proof.
  assert (Hans : PyStr.lower (PyStr.strip " Y ") = "y") by reflexivity.
  split; [exact Hans|].
  assert (Hfile : fs (Sample.stale_world [" Y "])
                    !! path_join Sample.models_dir
                         "Qwen3-4B-Instruct-2507-Q5_K_M.gguf" = Some "old")
    by (vm_compute; reflexivity).
  pose proof (download_model_overwrite (Sample.fetch_replace "new")
                "qwen3-4b-q5" _ Sample.models_dir None
                (Sample.stale_world [" Y "]) "old" " Y " []
                eq_refl Hfile eq_refl Hans) as (_ & Heff & _).
  exact Heff.
Defined.

Lemma download_model_prompt_eof_witness :
  fst (download_model true (Sample.fetch_replace "new")
         "qwen3-4b-q5" Sample.models_dir None false (Sample.stale_world []))
    = Raise EOFError.
Proof.
  assert (Hfile : fs (Sample.stale_world [])
                    !! path_join Sample.models_dir
                         "Qwen3-4B-Instruct-2507-Q5_K_M.gguf" = Some "old")
    by (vm_compute; reflexivity).
  pose proof (download_model_prompt_eof true (Sample.fetch_replace "new")
                "qwen3-4b-q5" _ Sample.models_dir None
                (Sample.stale_world []) "old" eq_refl Hfile eq_refl)
    as (Hr & _).
  exact Hr.
Defined.

Lemma download_model_frame_witness :
  let out := download_model true (Sample.fetch_replace "new")
               "qwen3-4b-q5" Sample.models_dir None true
               (Sample.stale_world []) in
  fs (snd out) = fs (Sample.stale_world []) \/
  fs (snd out) = delete Sample.q5_path (fs (Sample.stale_world [])) \/
  exists wf,
    (forall q, q <> Sample.q5_path ->
               fs wf !! q = fs (Sample.stale_world []) !! q) /\
    fs (snd out) = snd (Sample.fetch_replace "new" Sample.q5_fetch wf).
Proof.
  exact (download_model_frame true (Sample.fetch_replace "new")
           "qwen3-4b-q5" _ Sample.models_dir None true
           (Sample.stale_world []) eq_refl).
Defined.

Lemma download_model_fetch_failure_witness :
  fst (download_model true Sample.fetch_fail
         "qwen3-4b-q5" Sample.models_dir None false Sample.empty_world)
    = Ok false /\
  effects_of (trace (snd (download_model true Sample.fetch_fail
                            "qwen3-4b-q5" Sample.models_dir None false
                            Sample.empty_world)))
    = [EvFetch Sample.q5_fetch].
Proof.
  pose proof (download_model_fetch_failure Sample.fetch_fail
                "qwen3-4b-q5" _ Sample.models_dir None false
                "404 Client Error" Sample.empty_world
                eq_refl (or_intror eq_refl) (fun _ => eq_refl))
    as (Hr & _ & Heff & _).
  split; [exact Hr | exact Heff].
Defined.

Lemma main_browse_witness :
  fst (main true Sample.fetch_fail Sample.no_listing (Some "hf_env")
         Sample.resolve_models (Sample.browse_args "org/repo")
         Sample.empty_world) = Ok tt /\
  effects_of (trace (snd (main true Sample.fetch_fail Sample.no_listing
                            (Some "hf_env") Sample.resolve_models
                            (Sample.browse_args "org/repo")
                            Sample.empty_world)))
    = [EvListRepo "org/repo" None].
Proof.
  pose proof (main_browse true Sample.fetch_fail Sample.no_listing
                (Some "hf_env") Sample.resolve_models
                (Sample.browse_args "org/repo") "org/repo"
                Sample.empty_world eq_refl eq_refl) as (Hr & _ & _ & Heff).
  split; [exact Hr | exact Heff].
Defined.


Lemma main_download_effects_witness :
  fst (main true Sample.fetch_fail Sample.no_listing (Some "hf_env")
         Sample.resolve_models (Sample.key_args ["nope"])
         Sample.empty_world) = SysExit 1 /\
  exists delta,
    effects_of (trace (snd (main true Sample.fetch_fail Sample.no_listing
                              (Some "hf_env") Sample.resolve_models
                              (Sample.key_args ["nope"])
                              Sample.empty_world)))
      = EvMkdir Sample.models_dir :: delta /\
    Forall (run_effect_ok Sample.models_dir (Some "hf_env") ["nope"]) delta.
Proof.
  assert (Hexit : fst (main true Sample.fetch_fail Sample.no_listing
                         (Some "hf_env") Sample.resolve_models
                         (Sample.key_args ["nope"]) Sample.empty_world)
                  = SysExit 1) by (vm_compute; reflexivity).
  split; [exact Hexit|].
  exact (main_download_effects true Sample.fetch_fail Sample.no_listing
           (Some "hf_env") Sample.resolve_models
           (Sample.key_args ["nope"]) ["nope"] Sample.empty_world 1
           eq_refl (or_introl eq_refl) Hexit).
Defined.


Lemma main_unknown_key_exit_witness :
  exit_code (fst (main true (Sample.fetch_replace "new") Sample.no_listing
                    None Sample.resolve_models
                    (Sample.key_args ["qwen3-4b-q5"; "nope"])
                    Sample.empty_world)) = 1%Z.
Proof.
  exact (main_unknown_key_exit true (Sample.fetch_replace "new")
           Sample.no_listing None Sample.resolve_models
           (Sample.key_args ["qwen3-4b-q5"; "nope"])
           ["qwen3-4b-q5"; "nope"] "nope" Sample.empty_world
           eq_refl eq_refl (or_intror (or_introl eq_refl)) eq_refl).
Defined.

Lemma main_prompt_eof_witness :
  fst (main true (Sample.fetch_replace "new") Sample.no_listing None
         Sample.resolve_models (Sample.key_args ["qwen3-4b-q5"])
         (Sample.stale_world [])) = Raise EOFError.
Proof.
  assert (Hfile : fs (Sample.stale_world [])
                    !! path_join
                         (Sample.resolve_models
                            (args_dir (Sample.key_args ["qwen3-4b-q5"])))
                         "Qwen3-4B-Instruct-2507-Q5_K_M.gguf" = Some "old")
    by (vm_compute; reflexivity).
  pose proof (main_prompt_eof true (Sample.fetch_replace "new")
                Sample.no_listing None Sample.resolve_models
                (Sample.key_args ["qwen3-4b-q5"]) "qwen3-4b-q5" [] _ "old"
                (Sample.stale_world []) eq_refl eq_refl eq_refl Hfile
                eq_refl eq_refl) as (Hr & _).
  exact Hr.
Defined.

Lemma download_model_returns_witness :
  exists ok,
    fst (download_model true Sample.fetch_path_only
           "qwen3-4b-q5" Sample.models_dir None true (Sample.stale_world []))
      = Ok ok.
Proof.
  destruct (download_model_returns true Sample.fetch_path_only
              "qwen3-4b-q5" Sample.models_dir None true
              (Sample.stale_world []) (or_introl eq_refl))
    as (ok & Hr & _).
  exists ok. exact Hr.
Defined.
